(** * Content summarizer (app.py): extraction and summarization verified

    A shallow embedding of [app.py]: the two functions
    [extract_content_from_url] and [call_gemini_api], together with the parts
    of the Python libraries they call (urllib.parse.urljoin, the traversal
    primitives of BeautifulSoup, requests' [raise_for_status]).

    Conventions.
    - A Python [str] is a [string]; each character stands for a code point
      below 256.
    - A Python exception is an [Exception] value carrying its class name and
      the text that [str(e)] returns; code that may raise returns an
      [outcome].
    - What the program cannot decide by itself (what the network answers, how
      the HTML parser builds the tree) is a variable of the enclosing
      section. *)

From Stdlib Require Import Ascii String SpecFloat.
From stdpp Require Import base option list gmap strings pretty.

Open Scope Z_scope.

Set Warnings "-register-all,-clear-no-such-hyp".

(** ** Exceptions *)

Record Exception := mkException { exc_type : string; exc_str : string }.

Inductive outcome (A : Type) : Type :=
| Return (a : A)
| Raise (e : Exception).
Arguments Return {A} a.
Arguments Raise {A} e.

Definition obind {A B} (m : outcome A) (k : A -> outcome B) : outcome B :=
  match m with
  | Return a => k a
  | Raise e => Raise e
  end.

Declare Scope outcome_scope.
Delimit Scope outcome_scope with outcome.
Notation "x <- m ;; k" := (obind m (fun x => k))
  (at level 100, m at next level, right associativity) : outcome_scope.
Notation "m ;;; k" := (obind m (fun _ => k))
  (at level 100, right associativity) : outcome_scope.

(** [for x in l: ys.append(f x)], stopping at the first exception. *)
Fixpoint for_each {A B} (f : A -> outcome B) (l : list A) : outcome (list B) :=
  match l with
  | [] => Return []
  | x :: l' =>
      match f x with
      | Raise e => Raise e
      | Return y =>
          match for_each f l' with
          | Raise e => Raise e
          | Return ys => Return (y :: ys)
          end
      end
  end.

(** ** Python strings *)

Module Str.

Definition LF : string := String "010"%char "".

Definition code (c : ascii) : nat := nat_of_ascii c.

Definition eqb_char (a b : ascii) : bool := Ascii.eqb a b.

(** [c in s] for a one-character [c]. *)
Fixpoint has_char (c : ascii) (s : string) : bool :=
  match s with
  | "" => false
  | String a s' => eqb_char a c || has_char c s'
  end.

(** [sub in s]. *)
Fixpoint contains (sub s : string) : bool :=
  String.prefix sub s ||
  match s with
  | "" => false
  | String _ s' => contains sub s'
  end.

(** [sep.join(l)]. *)
Fixpoint join (sep : string) (l : list string) : string :=
  match l with
  | [] => ""
  | [x] => x
  | x :: l' => x +:+ sep +:+ join sep l'
  end.

(** [s.split(c)] for a one-character separator: never the empty list. *)
Fixpoint split (c : ascii) (s : string) : list string :=
  match s with
  | "" => [""]
  | String a s' =>
      if eqb_char a c then "" :: split c s'
      else match split c s' with
           | [] => [String a ""]
           | w :: ws => String a w :: ws
           end
  end.

(** [s.partition(c)], as (before, found, after). *)
Fixpoint partition (c : ascii) (s : string) : string * bool * string :=
  match s with
  | "" => ("", false, "")
  | String a s' =>
      if eqb_char a c then ("", true, s')
      else let '(b, f, r) := partition c s' in (String a b, f, r)
  end.

(** [s.rpartition(c)[2]]: what follows the last [c], or all of [s]. *)
Fixpoint after_last (c : ascii) (s : string) : string :=
  match s with
  | "" => ""
  | String a s' =>
      if has_char c s' then after_last c s'
      else if eqb_char a c then s' else s
  end.

(** [s.lstrip(chars)] and [s.strip(chars)] with the characters to drop
    given as a predicate. *)
Fixpoint lstrip (drop : ascii -> bool) (s : string) : string :=
  match s with
  | "" => ""
  | String a s' => if drop a then lstrip drop s' else s
  end.

Fixpoint rstrip (drop : ascii -> bool) (s : string) : string :=
  match s with
  | "" => ""
  | String a s' =>
      match rstrip drop s' with
      | "" => if drop a then "" else String a ""
      | r => String a r
      end
  end.

Definition strip_chars (drop : ascii -> bool) (s : string) : string :=
  rstrip drop (lstrip drop s).

(** [s.replace(c, "")]. *)
Fixpoint remove (drop : ascii -> bool) (s : string) : string :=
  match s with
  | "" => ""
  | String a s' => if drop a then remove drop s' else String a (remove drop s')
  end.

(** [str.isspace] on code points below 256. *)
Definition isspace (c : ascii) : bool :=
  let n := code c in
  ((9 <=? n) && (n <=? 13) || (28 <=? n) && (n <=? 32)
   || (n =? 133) || (n =? 160))%nat.

(** [s.strip()]. *)
Definition strip (s : string) : string := strip_chars isspace s.

Definition is_upper (c : ascii) : bool :=
  let n := code c in ((65 <=? n) && (n <=? 90))%nat.
Definition is_lower (c : ascii) : bool :=
  let n := code c in ((97 <=? n) && (n <=? 122))%nat.
Definition is_digit (c : ascii) : bool :=
  let n := code c in ((48 <=? n) && (n <=? 57))%nat.

(** [c.isascii() and c.isalpha()]. *)
Definition is_ascii_alpha (c : ascii) : bool := is_upper c || is_lower c.

Definition isascii (s : string) : bool :=
  forallb (fun c => (code c <? 128)%nat) (list_ascii_of_string s).

Definition lower_char (c : ascii) : ascii :=
  if is_upper c then ascii_of_nat (code c + 32) else c.

Fixpoint lower (s : string) : string :=
  match s with
  | "" => ""
  | String a s' => String (lower_char a) (lower s')
  end.

Definition all_chars (p : ascii -> bool) (s : string) : bool :=
  forallb p (list_ascii_of_string s).

(** [bool(s)]. *)
Definition nonempty (s : string) : bool :=
  match s with "" => false | _ => true end.

(** [a in l] for a list of strings. *)
Definition in_list (a : string) (l : list string) : bool :=
  existsb (String.eqb a) l.

(** [s[:1] == c]. *)
Definition starts_with_char (c : ascii) (s : string) : bool :=
  match s with
  | String a _ => eqb_char a c
  | "" => false
  end.

End Str.

(** ** urllib.parse (CPython 3.11), as reached through [requests.compat.urljoin]

    The checks of a bracketed host ([ipaddress.ip_address], the IPvFuture
    pattern) and of a non-ASCII netloc (NFKC normalisation) are variables:
    they are consulted only for a netloc that holds both brackets, or a
    character outside ASCII. *)

Module Urllib.

Import Str.

Definition uses_relative : list string :=
  [""; "ftp"; "http"; "gopher"; "nntp"; "imap";
   "wais"; "file"; "https"; "shttp"; "mms";
   "prospero"; "rtsp"; "rtspu"; "sftp";
   "svn"; "svn+ssh"; "ws"; "wss"].

Definition uses_netloc : list string :=
  [""; "ftp"; "http"; "gopher"; "nntp"; "telnet";
   "imap"; "wais"; "file"; "mms"; "https"; "shttp";
   "snews"; "prospero"; "rtsp"; "rtspu"; "rsync";
   "svn"; "svn+ssh"; "sftp"; "nfs"; "git"; "git+ssh";
   "ws"; "wss"].

Definition uses_params : list string :=
  [""; "ftp"; "hdl"; "prospero"; "http"; "imap";
   "https"; "shttp"; "rtsp"; "rtspu"; "sip"; "sips";
   "mms"; "sftp"; "tel"].

Definition scheme_chars (c : ascii) : bool :=
  is_lower c || is_upper c || is_digit c
  || eqb_char c "+" || eqb_char c "-" || eqb_char c ".".

(** [_WHATWG_C0_CONTROL_OR_SPACE]: code points 0 to 32. *)
Definition c0_control_or_space (c : ascii) : bool := (code c <=? 32)%nat.

(** [_UNSAFE_URL_BYTES_TO_REMOVE]: tab, carriage return, line feed. *)
Definition unsafe_url_byte (c : ascii) : bool :=
  let n := code c in ((n =? 9) || (n =? 13) || (n =? 10))%nat.

Definition ValueError (msg : string) : Exception := mkException "ValueError" msg.

Record SplitResult := mkSplit {
  s_scheme : string; s_netloc : string; s_path : string;
  s_query : string; s_fragment : string }.

Record ParseResult := mkParse {
  scheme : string; netloc : string; path : string;
  params : string; query : string; fragment : string }.

(** [_splitnetloc(url, 2)] on the text that follows the two slashes: the
    netloc runs up to the first of [/], [?], [#]. *)
Fixpoint _splitnetloc (rest : string) : string * string :=
  match rest with
  | "" => ("", "")
  | String a s' =>
      if eqb_char a "/" || eqb_char a "?" || eqb_char a "#" then ("", rest)
      else let '(n, r) := _splitnetloc s' in (String a n, r)
  end.

(** [url.split(c, 1)] when [c in url]; also [url[:i]] and [url[i+1:]] for
    [i = url.find(c)], when [i >= 0]. *)
Definition split_first (c : ascii) (s : string) : option (string * string) :=
  match partition c s with
  | (b, true, r) => Some (b, r)
  | _ => None
  end.

(** [_splitparams]. *)
Definition _splitparams (url : string) : string * string :=
  if has_char "/" url then
    (* i = url.find(';', url.rfind('/')) *)
    let tail := after_last "/" url in
    match split_first ";" tail with
    | None => (url, "")
    | Some (b, r) =>
        (String.substring 0 (String.length url - String.length tail) url +:+ b, r)
    end
  else
    match split_first ";" url with
    | Some (b, r) => (b, r)
    | None => (url, "")
    end.

Section Checks.

Variable _check_bracketed_host : string -> outcome unit.
Variable _checknetloc_nfkc : string -> outcome unit.

Definition _check_bracketed_netloc (netloc : string) : outcome unit :=
  let hostname_and_port := after_last "@" netloc in
  let '(before_bracket, have_open_br, bracketed) :=
    partition "[" hostname_and_port in
  if have_open_br then
    if nonempty before_bracket then Raise (ValueError "Invalid IPv6 URL")
    else
      let '(hostname, _, port) := partition "]" bracketed in
      if nonempty port && negb (starts_with_char ":" port)
      then Raise (ValueError "Invalid IPv6 URL")
      else _check_bracketed_host hostname
  else
    let '(hostname, _, port) := partition ":" hostname_and_port in
    _check_bracketed_host hostname.

Definition _checknetloc (netloc : string) : outcome unit :=
  if negb (nonempty netloc) || isascii netloc then Return tt
  else _checknetloc_nfkc netloc.

Definition urlsplit (url scheme : string) : outcome SplitResult :=
  let url := lstrip c0_control_or_space url in
  let scheme := strip_chars c0_control_or_space scheme in
  let url := remove unsafe_url_byte url in
  let scheme := remove unsafe_url_byte scheme in
  let '(scheme, url) :=
    match split_first ":" url with
    | Some (String c0 pre as head, rest) =>
        if is_ascii_alpha c0 && all_chars scheme_chars head
        then (lower head, rest) else (scheme, url)
    | _ => (scheme, url)
    end in
  (r <- match url with
        | String "/" (String "/" rest) =>
            let '(netloc, url') := _splitnetloc rest in
            if (has_char "[" netloc && negb (has_char "]" netloc))
               || (has_char "]" netloc && negb (has_char "[" netloc))
            then Raise (ValueError "Invalid IPv6 URL")
            else
              (if has_char "[" netloc && has_char "]" netloc
               then _check_bracketed_netloc netloc else Return tt) ;;;
              Return (netloc, url')
        | _ => Return ("", url)
        end ;;
   let '(netloc, url) := r in
   let '(url, fragment) :=
     match split_first "#" url with
     | Some (u, f) => (u, f)
     | None => (url, "")
     end in
   let '(url, query) :=
     match split_first "?" url with
     | Some (u, q) => (u, q)
     | None => (url, "")
     end in
   _checknetloc netloc ;;;
   Return (mkSplit scheme netloc url query fragment))%outcome.

Definition urlparse (url scheme : string) : outcome ParseResult :=
  (splitresult <- urlsplit url scheme ;;
   let '(mkSplit scheme netloc url query fragment) := splitresult in
   let '(url, params) :=
     if in_list scheme uses_params && has_char ";" url
     then _splitparams url else (url, "") in
   Return (mkParse scheme netloc url params query fragment))%outcome.

Definition urlunsplit (scheme netloc url query fragment : string) : string :=
  let url :=
    if nonempty netloc
       || (nonempty scheme && in_list scheme uses_netloc
           && negb (String.prefix "//" url))
    then
      let url := if nonempty url && negb (starts_with_char "/" url)
                 then "/" +:+ url else url in
      "//" +:+ netloc +:+ url
    else url in
  let url := if nonempty scheme then scheme +:+ ":" +:+ url else url in
  let url := if nonempty query then url +:+ "?" +:+ query else url in
  let url := if nonempty fragment then url +:+ "#" +:+ fragment else url in
  url.

Definition urlunparse (p : ParseResult) : string :=
  let url := if nonempty (params p)
             then path p +:+ ";" +:+ params p else path p in
  urlunsplit (scheme p) (netloc p) url (query p) (fragment p).

(** [segments[1:-1] = filter(None, segments[1:-1])]. *)
Definition filter_middle (segments : list string) : list string :=
  match segments with
  | first :: rest =>
      match List.rev rest with
      | last :: mid_rev =>
          (first :: List.filter nonempty (List.rev mid_rev) ++ [last])%list
      | [] => segments
      end
  | [] => []
  end.

(** The loop over [segments], with [resolved_path] kept in reverse. *)
Fixpoint resolve (segments : list string) (resolved_rev : list string)
  : list string :=
  match segments with
  | [] => List.rev resolved_rev
  | seg :: segments' =>
      if String.eqb seg ".." then resolve segments' (List.tl resolved_rev)
      else if String.eqb seg "." then resolve segments' resolved_rev
      else resolve segments' (seg :: resolved_rev)
  end.

Definition urljoin (base url : string) : outcome string :=
  if negb (nonempty base) then Return url
  else if negb (nonempty url) then Return base
  else
    (b <- urlparse base "" ;;
     u <- urlparse url (scheme b) ;;
     if negb (String.eqb (scheme u) (scheme b))
        || negb (in_list (scheme u) uses_relative)
     then Return url
     else if in_list (scheme u) uses_netloc && nonempty (netloc u)
     then Return (urlunparse u)
     else
       let netloc' := if in_list (scheme u) uses_netloc
                      then netloc b else netloc u in
       if negb (nonempty (path u)) && negb (nonempty (params u)) then
         let query' := if nonempty (query u) then query u else query b in
         Return (urlunparse (mkParse (scheme u) netloc' (path b) (params b)
                                     query' (fragment u)))
       else
         let base_parts := split "/" (path b) in
         let base_parts :=
           match List.last base_parts "" with
           | "" => base_parts
           | _ => List.removelast base_parts
           end in
         let segments :=
           if starts_with_char "/" (path u) then split "/" (path u)
           else filter_middle (base_parts ++ split "/" (path u))%list in
         let resolved_path := resolve segments [] in
         let resolved_path :=
           if in_list (List.last segments "") ["."; ".."]
           then (resolved_path ++ [""])%list else resolved_path in
         let joined := join "/" resolved_path in
         Return (urlunparse (mkParse (scheme u) netloc'
                                     (if nonempty joined then joined else "/")
                                     (params u) (query u) (fragment u))))%outcome.

End Checks.

End Urllib.

(** ** Python values: decoded JSON and TOML secrets *)

Module Py.

Import Str.

(** What [response.json()] can return. *)
Inductive Json :=
| JNone
| JBool (b : bool)
| JInt (n : Z)
| JFloat (f : spec_float)
| JStr (s : string)
| JList (l : list Json)
| JDict (d : gmap string Json).

Definition is_zero_float (f : spec_float) : bool :=
  match f with S754_zero _ => true | _ => false end.

(** [bool(v)]. *)
Definition truthy (v : Json) : bool :=
  match v with
  | JNone => false
  | JBool b => b
  | JInt n => negb (n =? 0)
  | JFloat f => negb (is_zero_float f)
  | JStr s => nonempty s
  | JList l => match l with [] => false | _ => true end
  | JDict d => negb (bool_decide (d = ∅))
  end.

Definition type_name (v : Json) : string :=
  match v with
  | JNone => "NoneType"
  | JBool _ => "bool"
  | JInt _ => "int"
  | JFloat _ => "float"
  | JStr _ => "str"
  | JList _ => "list"
  | JDict _ => "dict"
  end.

Definition TypeError (msg : string) : Exception := mkException "TypeError" msg.
Definition KeyError (key_repr : string) : Exception := mkException "KeyError" key_repr.
Definition IndexError (msg : string) : Exception := mkException "IndexError" msg.

(** [repr(key)] of a key free of quotes, backslashes and control
    characters, which is what the keys of the program are. *)
Definition repr_key (key : string) : string := "'" +:+ key +:+ "'".

Definition is_str (key : string) (v : Json) : bool :=
  match v with JStr s => String.eqb s key | _ => false end.

(** [key in v] for a string [key]. *)
Definition py_in (key : string) (v : Json) : outcome bool :=
  match v with
  | JDict d => Return (bool_decide (is_Some (d !! key)))
  | JList l => Return (existsb (is_str key) l)
  | JStr s => Return (contains key s)
  | _ => Raise (TypeError ("argument of type '" +:+ type_name v
                             +:+ "' is not iterable"))
  end.

(** [v[key]] for a string [key]. *)
Definition getitem (v : Json) (key : string) : outcome Json :=
  match v with
  | JDict d =>
      match d !! key with
      | Some x => Return x
      | None => Raise (KeyError (repr_key key))
      end
  | JList _ => Raise (TypeError "list indices must be integers or slices, not str")
  | JStr _ => Raise (TypeError "string indices must be integers, not 'str'")
  | _ => Raise (TypeError ("'" +:+ type_name v +:+ "' object is not subscriptable"))
  end.

(** [v[0]]. The keys of a decoded JSON object are strings, so a dict has
    no key [0]. *)
Definition getitem0 (v : Json) : outcome Json :=
  match v with
  | JDict _ => Raise (KeyError "0")
  | JList l =>
      match l with
      | x :: _ => Return x
      | [] => Raise (IndexError "list index out of range")
      end
  | JStr s =>
      match s with
      | String c _ => Return (JStr (String c ""))
      | "" => Raise (IndexError "string index out of range")
      end
  | _ => Raise (TypeError ("'" +:+ type_name v +:+ "' object is not subscriptable"))
  end.

(** A value of the secrets file (TOML). *)
Inductive Toml :=
| TStr (s : string)
| TInt (n : Z)
| TFloat (f : spec_float)
| TBool (b : bool)
| TDatetime (iso : string)
| TDate (iso : string)
| TTime (iso : string)
| TArray (l : list Toml)
| TTable (d : gmap string Toml).

Definition toml_truthy (v : Toml) : bool :=
  match v with
  | TStr s => nonempty s
  | TInt n => negb (n =? 0)
  | TFloat f => negb (is_zero_float f)
  | TBool b => b
  | TDatetime _ | TDate _ | TTime _ => true
  | TArray l => match l with [] => false | _ => true end
  | TTable d => negb (bool_decide (d = ∅))
  end.

(** [bool(v)] for a value that may be [None]. *)
Definition truthy_opt (v : option Toml) : bool :=
  match v with
  | None => false
  | Some v => toml_truthy v
  end.

End Py.

(** ** requests: responses, [raise_for_status], and the calls made *)

Module Requests.

Import Py.

Record Response := mkResponse {
  status_code : Z;
  reason : string;
  url : string;            (* the final URL, after redirects *)
  content : string;
  json : outcome Json      (* what [response.json()] does *)
}.

Definition HTTPError (msg : string) : Exception := mkException "HTTPError" msg.

Definition raise_for_status (r : Response) : outcome unit :=
  let http_error_msg :=
    if (400 <=? status_code r) && (status_code r <? 500) then
      pretty (status_code r) +:+ " Client Error: " +:+ reason r
        +:+ " for url: " +:+ url r
    else if (500 <=? status_code r) && (status_code r <? 600) then
      pretty (status_code r) +:+ " Server Error: " +:+ reason r
        +:+ " for url: " +:+ url r
    else "" in
  if Str.nonempty http_error_msg then Raise (HTTPError http_error_msg)
  else Return tt.

(** A call that leaves the program. *)
Inductive Request :=
| GET (url : string) (timeout : Z)
| POST (url : string) (json : Json) (headers : list (string * string))
       (timeout : Z).

End Requests.

(** ** Effects: the calls made to requests so far, and exceptions *)

Definition IO (A : Type) : Type :=
  list Requests.Request -> outcome A * list Requests.Request.

Definition ret {A} (a : A) : IO A := fun sent => (Return a, sent).

Definition bind {A B} (m : IO A) (k : A -> IO B) : IO B :=
  fun sent =>
    match m sent with
    | (Return a, sent') => k a sent'
    | (Raise e, sent') => (Raise e, sent')
    end.

(** A computation that touches nothing outside. *)
Definition lift {A} (m : outcome A) : IO A := fun sent => (m, sent).

(** [try: m / except Exception as e: handler e]. *)
Definition try_except {A} (m : IO A) (handler : Exception -> IO A) : IO A :=
  fun sent =>
    match m sent with
    | (Return a, sent') => (Return a, sent')
    | (Raise e, sent') => handler e sent'
    end.

Declare Scope io_scope.
Delimit Scope io_scope with io.
Notation "x <- m ;; k" := (bind m (fun x => k))
  (at level 100, m at next level, right associativity) : io_scope.
Notation "m ;;; k" := (bind m (fun _ => k))
  (at level 100, right associativity) : io_scope.

(** Run from a program that has sent nothing yet. *)
Definition run {A} (m : IO A) : outcome A * list Requests.Request := m [].

(** Sending a request: the world answers, and the request is recorded. *)
Definition perform (send : Requests.Request -> outcome Requests.Response)
    (rq : Requests.Request) : IO Requests.Response :=
  fun sent => (send rq, (sent ++ [rq])%list).

(** ** The Summarizer: [gemini_api_key] and [call_gemini_api] *)

Module Summarizer.

Import Str Py Requests.

Definition toml_type_name (v : Toml) : string :=
  match v with
  | TStr _ => "str"
  | TInt _ => "int"
  | TFloat _ => "float"
  | TBool _ => "bool"
  | TDatetime _ => "datetime.datetime"
  | TDate _ => "datetime.date"
  | TTime _ => "datetime.time"
  | TArray _ => "list"
  | TTable _ => "AttrDict"
  end.

Definition AttributeError (msg : string) : Exception :=
  mkException "AttributeError" msg.

(** Line 6, run once when the module is loaded:
    [st.secrets.get("gemini", {}).get("api_key", None)]. *)
Definition gemini_api_key (secrets : gmap string Toml) : outcome (option Toml) :=
  match default (TTable ∅) (secrets !! "gemini") with
  | TTable section => Return (section !! "api_key")
  | v => Raise (AttributeError ("'" +:+ toml_type_name v
                                  +:+ "' object has no attribute 'get'"))
  end.

Definition key_not_found : string :=
  "Gemini API key not found. Please check your config.toml file.".

Definition no_summary : string := "No summary returned from Gemini API.".

Definition endpoint : string :=
  "https://generativelanguage.googleapis.com/v1beta/models/gemini-2.0-flash:generateContent?key=".

(** Lines 17 to 23. *)
Definition combined_input (text : string) (images : list string) : string :=
  "Web Page Content:" +:+ LF +:+
  text +:+
  LF +:+ LF +:+ "Images:" +:+ LF +:+
  (match images with [] => "None" | _ => join ", " images end) +:+
  LF +:+ LF +:+ "Please provide a brief summary of the above content.".

(** Lines 25 to 29. *)
Definition payload (text : string) (images : list string) : Json :=
  JDict {[ "contents" :=
    JList [ JDict {[ "parts" :=
      JList [ JDict {[ "text" := JStr (combined_input text images) ]} ] ]} ] ]}.

Definition headers : list (string * string) :=
  [("Content-Type", "application/json")].

(** Lines 38 to 41, on the decoded body [data]. *)
Definition read_summary (data : Json) : outcome Json :=
  (has <- py_in "candidates" data ;;
   cond <- (if has : bool
            then c <- getitem data "candidates" ;; Return (truthy c)
            else Return false) ;;
   if cond : bool then
     candidates <- getitem data "candidates" ;;
     candidate <- getitem0 candidates ;;
     content <- getitem candidate "content" ;;
     parts <- getitem content "parts" ;;
     part <- getitem0 parts ;;
     getitem part "text"
   else Return (JStr no_summary))%outcome.

Section Program.

(** The module global set at line 6. *)
Variable api_key : option Toml.
(** [str] of a secret that is not a string, as an f-string formats it. *)
Variable py_str : Toml -> string.
(** What the network answers to a request. *)
Variable send : Request -> outcome Response.

Definition format_key : string :=
  match api_key with
  | Some (TStr s) => s
  | Some v => py_str v
  | None => "None"
  end.

Definition gemini_url : string := endpoint +:+ format_key.

(** Lines 34 to 41: the body of the [try]. *)
Definition request_summary (text : string) (images : list string) : IO Json :=
  (response <- perform send (POST gemini_url (payload text images) headers 30) ;;
   lift (raise_for_status response) ;;;
   data <- lift (json response) ;;
   lift (read_summary data))%io.

Definition call_gemini_api (text : string) (images : list string) : IO Json :=
  if negb (truthy_opt api_key) then ret (JStr key_not_found)
  else
    try_except (request_summary text images)
      (fun e => ret (JStr ("Error calling Gemini API: " +:+ exc_str e))).

End Program.

End Summarizer.

(** ** BeautifulSoup: the parse tree and the traversals the program uses

    The tree is kept as the parser built it. An object of the tree is known
    by its position (the child indices from the root), which is what the
    list returned by [find_all] holds on to; [decompose] records the position
    of the object it destroys, and every traversal skips what has been
    destroyed. *)

Module Bs4.

Import Str.

Inductive StringClass :=
| NavigableString | CData | Comment | Declaration | Doctype
| ProcessingInstruction | Script | Stylesheet | TemplateString
| RubyTextString | RubyParenthesisString.

Inductive PageElement :=
| Text (cls : StringClass) (s : string)
| Tag (name : string) (attrs : gmap string string)
      (contents : list PageElement).

Definition Path := list nat.

Record BeautifulSoup := mkSoup {
  contents : list PageElement;      (* the children of the document *)
  decomposed : gset Path            (* the objects destroyed so far *)
}.

(** [element.descendants], in document order, each with its position. A
    tag is listed as parsed; its children are reached through the
    traversal, never through the listed value. *)
Fixpoint walk (dead : gset Path) (p : Path) (e : PageElement)
  : list (Path * PageElement) :=
  if bool_decide (p ∈ dead) then []
  else (p, e) ::
    match e with
    | Text _ _ => []
    | Tag _ _ cs =>
        (fix children (i : nat) (cs : list PageElement) :=
           match cs with
           | [] => []
           | c :: cs' => walk dead (p ++ [i]) c ++ children (S i) cs'
           end) 0%nat cs
    end.

Fixpoint walk_children (dead : gset Path) (p : Path) (i : nat)
    (cs : list PageElement) : list (Path * PageElement) :=
  match cs with
  | [] => []
  | c :: cs' => walk dead (p ++ [i]) c ++ walk_children dead p (S i) cs'
  end.

Definition descendants (soup : BeautifulSoup) : list (Path * PageElement) :=
  walk_children (decomposed soup) [] 0 (contents soup).

(** The object at position [r] below [e], when there is one. *)
Fixpoint elem_at (e : PageElement) (r : Path) : option PageElement :=
  match r with
  | [] => Some e
  | i :: r' =>
      match e with
      | Tag _ _ cs =>
          match cs !! i with
          | Some c => elem_at c r'
          | None => None
          end
      | Text _ _ => None
      end
  end.

(** A tag whose name is one of [names]. *)
Definition is_tag (names : list string) (e : PageElement) : bool :=
  match e with
  | Tag name _ _ => in_list name names
  | Text _ _ => false
  end.

(** [soup.find_all(names)], also written [soup(names)]. *)
Definition find_all (names : list string) (soup : BeautifulSoup)
  : list (Path * PageElement) :=
  List.filter (fun t => is_tag names (snd t)) (descendants soup).

(** [tag.decompose()]. *)
Definition decompose (tag : Path * PageElement) (soup : BeautifulSoup)
  : BeautifulSoup :=
  mkSoup (contents soup) ({[ fst tag ]} ∪ decomposed soup).

(** [for tag in tags: tag.decompose()]. *)
Definition decompose_each (tags : list (Path * PageElement))
    (soup : BeautifulSoup) : BeautifulSoup :=
  fold_left (fun soup tag => decompose tag soup) tags soup.

(** The strings [_all_strings] keeps by default: exactly the classes
    [NavigableString] and [CData]. *)
Definition interesting_string (cls : StringClass) : bool :=
  match cls with
  | NavigableString | CData => true
  | _ => false
  end.

(** One step of [_all_strings(strip=True)]. *)
Definition stripped_string (e : PageElement) : option string :=
  match e with
  | Text cls s =>
      if interesting_string cls then
        let s := strip s in
        if nonempty s then Some s else None
      else None
  | Tag _ _ _ => None
  end.

(** [soup.stripped_strings]. *)
Definition stripped_strings (soup : BeautifulSoup) : list string :=
  omap (fun t => stripped_string (snd t)) (descendants soup).

(** [tag.get(key)]. *)
Definition get (tag : PageElement) (key : string) : option string :=
  match tag with
  | Tag _ attrs _ => attrs !! key
  | Text _ _ => None
  end.

End Bs4.

(** ** The Extractor: [extract_content_from_url] *)

Module Extractor.

Import Str Requests Bs4.

Section Program.

(** What the network answers to a request. *)
Variable send : Request -> outcome Response.
(** [BeautifulSoup(markup, 'html.parser')]: the children of the document. *)
Variable html_parser : string -> outcome (list PageElement).
(** The two checks of urllib.parse left open. *)
Variable _check_bracketed_host : string -> outcome unit.
Variable _checknetloc_nfkc : string -> outcome unit.

Definition urljoin : string -> string -> outcome string :=
  Urllib.urljoin _check_bracketed_host _checknetloc_nfkc.

(** Lines 61 to 65: the loop over the [img] tags, [images] being the list
    built so far. *)
Fixpoint collect_images (url : string) (imgs : list (Path * PageElement))
    (images : list string) : outcome (list string) :=
  match imgs with
  | [] => Return images
  | img :: imgs' =>
      match get (snd img) "src" with
      | Some src =>
          if nonempty src then
            match urljoin url src with
            | Return absolute_url =>
                collect_images url imgs' (images ++ [absolute_url])%list
            | Raise e => Raise e
            end
          else collect_images url imgs' images
      | None => collect_images url imgs' images
      end
  end.

(** Lines 51 to 67: the body of the [try]. *)
Definition scrape (url : string) : IO (string * list string) :=
  (response <- perform send (GET url 10) ;;
   lift (raise_for_status response) ;;;
   parsed <- lift (html_parser (content response)) ;;
   let soup := mkSoup parsed ∅ in
   let soup := decompose_each (find_all ["script"; "style"] soup) soup in
   let text := join " " (stripped_strings soup) in
   images <- lift (collect_images url (find_all ["img"] soup) []) ;;
   ret (text, images))%io.

Definition extract_content_from_url (url : string)
  : IO (string * list string) :=
  try_except (scrape url)
    (fun e => ret ("Error: " +:+ exc_str e, [])).

End Program.

End Extractor.

(** ** The behaviour in the words of the specification

    Definitions over the page as parsed, without any notion of destroyed
    objects: the page without some elements, its text nodes, its [img]
    elements. The theorems compare them with what the program computes. *)

Module Spec.

Import Str Py Bs4.


(** The nodes in document order, leaving out the elements named in
    [names] together with all they contain. *)
Fixpoint visible (names : list string) (e : PageElement) : list PageElement :=
  if is_tag names e then []
  else e ::
    match e with
    | Text _ _ => []
    | Tag _ _ cs => flat_map (visible names) cs
    end.

(** The page with the elements named in [names] removed. *)
Fixpoint without (names : list string) (e : PageElement) : list PageElement :=
  match e with
  | Text _ _ => [e]
  | Tag name attrs cs =>
      if in_list name names then []
      else [Tag name attrs (flat_map (without names) cs)]
  end.

Definition remove_elements (names : list string) (page : list PageElement)
  : list PageElement :=
  flat_map (without names) page.

(** All nodes of a tree, in document order. *)
Fixpoint nodes (e : PageElement) : list PageElement :=
  e :: match e with
       | Text _ _ => []
       | Tag _ _ cs => flat_map nodes cs
       end.

(** The strings BeautifulSoup hands out as the text of a page: those of
    class [NavigableString] or [CData]. Comments, declarations and the like
    are not among them, nor are the strings the parser sets apart by class:
    what [script], [style], [template], [rt] and [rp] elements hold. *)
Definition plain_string (e : PageElement) : option string :=
  match e with
  | Text cls s => if interesting_string cls then Some s else None
  | Tag _ _ _ => None
  end.

Definition plain_strings (page : list PageElement) : list string :=
  omap plain_string (flat_map nodes page).

(** The visible text as the program builds it: the plain strings left once
    [script] and [style] elements are removed, each stripped, the empty ones
    dropped, joined by single spaces. *)
Definition visible_text (page : list PageElement) : string :=
  join " "
    (List.filter nonempty
       (List.map strip (plain_strings (remove_elements ["script"; "style"] page)))).

(** A text node of the document: any string of the tree that is character
    data, whatever element holds it; comments, declarations, doctypes and
    processing instructions are other kinds of node. *)
Definition is_text_class (cls : StringClass) : bool :=
  match cls with
  | Comment | Declaration | Doctype | ProcessingInstruction => false
  | _ => true
  end.

Definition text_of (e : PageElement) : option string :=
  match e with
  | Text cls s => if is_text_class cls then Some s else None
  | Tag _ _ _ => None
  end.

(** The text nodes of a page, in document order. *)
Definition text_nodes (page : list PageElement) : list string :=
  omap text_of (flat_map nodes page).

(** All the text left once [script] and [style] elements are removed: every
    remaining text node, stripped, the empty ones dropped, joined by single
    spaces. *)
Definition all_text (page : list PageElement) : string :=
  join " "
    (List.filter nonempty
       (List.map strip (text_nodes (remove_elements ["script"; "style"] page)))).


(** The [img] elements of a page, in document order. *)
Definition img_elements (page : list PageElement) : list PageElement :=
  List.filter (is_tag ["img"]) (flat_map nodes page).

(** The [src] of an element, when it has one that is not empty. *)
Definition nonempty_src (e : PageElement) : option string :=
  match get e "src" with
  | Some src => if nonempty src then Some src else None
  | None => None
  end.

Definition has_nonempty_src (e : PageElement) : bool :=
  match nonempty_src e with
  | Some _ => true
  | None => false
  end.

(** The non-empty [src] attributes of the [img] elements, in document
    order, repetitions included. *)
Definition img_srcs (page : list PageElement) : list string :=
  omap nonempty_src (img_elements page).

(** The page holds no element named in [names]. *)
Definition free_of (names : list string) (page : list PageElement) : Prop :=
  Forall (fun e => is_tag names e = false) (flat_map nodes page).

(** A page as [html.parser] builds it: what [script] and [style] hold is
    raw text, never an element. *)
Fixpoint raw_text_ok (e : PageElement) : bool :=
  match e with
  | Text _ _ => true
  | Tag name _ cs =>
      if in_list name ["script"; "style"]
      then forallb (fun c => match c with Text _ _ => true | _ => false end) cs
      else forallb raw_text_ok cs
  end.

(** All the content of the node is inside [script] elements. *)
Fixpoint inside_script (e : PageElement) : bool :=
  match e with
  | Text _ _ => false
  | Tag name _ cs =>
      String.eqb name "script"
      || (negb (String.eqb name "img") && forallb inside_script cs)
  end.

(** The generated text of a candidate, for a body of the shape
    [{"candidates":[{"content":{"parts":[{"text": summary}]}}]}]. *)
Definition generated_text (candidate : Json) : option Json :=
  match candidate with
  | JDict c =>
      match c !! "content" with
      | Some (JDict content) =>
          match content !! "parts" with
          | Some (JList (JDict part :: _)) => part !! "text"
          | _ => None
          end
      | _ => None
      end
  | _ => None
  end.

(** No credential is configured: the secrets have no [gemini] table, or
    the table has no [api_key]. *)
Definition no_credential (secrets : gmap string Toml) : Prop :=
  secrets !! "gemini" = None
  \/ exists section, secrets !! "gemini" = Some (TTable section)
                     /\ section !! "api_key" = None.

End Spec.

(** ** Concrete configurations, pages and networks used by the examples *)

Module Examples.

Import Str Py Requests Bs4.

Definition accept (_ : string) : outcome unit := Return tt.

Definition no_str (_ : Toml) : string := "".

Definition unreachable (_ : Request) : outcome Response :=
  Raise (mkException "ConnectionError" "Network is unreachable").

(** A body of the expected shape, with one candidate. *)
Definition one_candidate : gmap string Json :=
  {[ "candidates" :=
       JList [ JDict {[ "content" :=
         JDict {[ "parts" := JList [ JDict {[ "text" := JStr "A short page." ]} ] ]} ]} ] ]}.

Definition answers (body : outcome Json) (_ : Request) : outcome Response :=
  Return (mkResponse 200 "OK" "https://generativelanguage.googleapis.com/" "" body).

Definition malformed : Exception :=
  mkException "JSONDecodeError" "Expecting value: line 1 column 1 (char 0)".

(** A server that answers every request with status 200 and the given
    body, reporting [final_url] as the URL the body came from. *)
Definition serves (final_url body : string) (_ : Request) : outcome Response :=
  Return (mkResponse 200 "OK" final_url body (Raise malformed)).

Definition not_found (_ : Request) : outcome Response :=
  Return (mkResponse 404 "Not Found" "https://x.com/missing" "" (Raise malformed)).

(** A parser that builds the given tree. *)
Definition parses (page : list PageElement) (_ : string)
  : outcome (list PageElement) := Return page.

(** [<img src='pic.png'>] *)
Definition one_image : list PageElement :=
  [ Tag "img" {[ "src" := "pic.png" ]} [] ].

(** [<p>hi</p><img src='http://['>] *)
Definition bad_src : list PageElement :=
  [ Tag "p" ∅ [ Text NavigableString "hi" ];
    Tag "img" {[ "src" := "http://[" ]} [] ].

(** [<script>var x;</script>] inside [html] and [head]. *)
Definition script_only : list PageElement :=
  [ Tag "html" ∅ [ Tag "head" ∅ [ Tag "script" ∅ [ Text Script "var x;" ] ] ] ].

(** A page with a script, a style sheet, a comment, text to strip, an [img]
    without [src], one with an empty [src], and the same picture twice. *)
Definition sample : list PageElement :=
  [ Tag "html" ∅
      [ Tag "head" ∅
          [ Tag "script" ∅ [ Text Script "var x;" ];
            Tag "style" ∅ [ Text Stylesheet "p {}" ] ];
        Tag "body" ∅
          [ Text NavigableString "  Hello ";
            Tag "p" ∅
              [ Text NavigableString "world";
                Text Comment "draft";
                Tag "img" {[ "src" := "../a.png" ]} [] ];
            Tag "img" ∅ [];
            Tag "img" {[ "src" := "" ]} [];
            Tag "img" {[ "src" := "../a.png" ]} [];
            Text NavigableString "   " ] ] ].

End Examples.

(** ** The extraction contract, as properties of one call *)

Module Contract.

Import Str Requests Bs4 Extractor Spec.

Section Call.

Variable send : Request -> outcome Response.
Variable html_parser : string -> outcome (list PageElement).
Variable chk_host chk_nfkc : string -> outcome unit.
Variable url : string.

(** The page was fetched (status accepted by [raise_for_status]) and
    parsed. *)
Definition fetched (response : Response) (page : list PageElement) : Prop :=
  send (GET url 10) = Return response
  /\ raise_for_status response = Return tt
  /\ html_parser (content response) = Return page.

Definition result : outcome (string * list string) :=
  fst (run (extract_content_from_url send html_parser chk_host chk_nfkc url)).

(** The image list is made of the [src] attributes resolved against
    [base response]. *)
Definition resolves_against (base : Response -> string) : Prop :=
  forall response page absolute_urls,
    fetched response page ->
    for_each (urljoin chk_host chk_nfkc (base response))
      (img_srcs (remove_elements ["script"; "style"] page)) = Return absolute_urls ->
    exists text, result = Return (text, absolute_urls).

(** The text returned for a fetched page is the text of all its text nodes
    outside [script] and [style]. *)
Definition returns_visible_text : Prop :=
  forall response page,
    fetched response page ->
    exists images, result = Return (all_text page, images).

(** A failed request, or an answer whose status is one of [refused], gives
    "Error: " followed by a message, and no image. *)
Definition fails_on (refused : Z -> bool) : Prop :=
  (forall e, send (GET url 10) = Raise e ->
     result = Return ("Error: " +:+ exc_str e, []))
  /\ (forall response,
        send (GET url 10) = Return response ->
        refused (status_code response) = true ->
        exists message, result = Return ("Error: " +:+ message, [])).

(** The image list has one entry for each [img] element with a non-empty
    [src], in document order. *)
Definition lists_every_img : Prop :=
  forall response page,
    fetched response page ->
    exists text images,
      result = Return (text, images)
      /\ Forall2 (fun src absolute_url =>
                    urljoin chk_host chk_nfkc url src = Return absolute_url)
           (img_srcs page) images.

End Call.

End Contract.

(** ** Streamlit: what a run of the script puts on the page *)

Module St.

Import Py.

Inductive Element :=
| title (body : string)
| write (body : Json)
| text_input (label value : string)
| button (label : string)
| spinner (text : string)
| error (body : string)
| subheader (body : string)
| image (url : string) (width : Z)
| info (body : string).

End St.

(** ** The presentation: [main] *)

Module App.

Import Str Py Requests Bs4.

Section Run.

(** The module global of line 6, and the outside world. *)
Variable api_key : option Toml.
Variable py_str : Toml -> string.
Variable send : Request -> outcome Response.
Variable html_parser : string -> outcome (list PageElement).
Variable _check_bracketed_host : string -> outcome unit.
Variable _checknetloc_nfkc : string -> outcome unit.
(** What [st.image(image, width=...)] does with an image: Streamlit hands a
    URL on to the browser and raises for a string it can neither hand on
    nor open as a file. *)
Variable st_image : string -> Z -> outcome unit.
(** The state of the two widgets in this run: what [st.text_input] and
    [st.button] return. *)
Variable url : string.
Variable clicked : bool.

(** Lines 73 to 78: what every run shows first. *)
Definition header : list St.Element :=
  [ St.title "Content Summarizer";
    St.write (JStr "Enter a URL to scrape for text and images, and to generate a summary with Gemini.");
    St.text_input "URL" "";
    St.button "Analyze" ].

(** Lines 94 and 95: [st.image] on each image in turn; the first one it
    raises on stops the run. *)
Fixpoint show_each (images : list string) : outcome (list St.Element) :=
  match images with
  | [] => Return []
  | image :: images' =>
      (st_image image 150 ;;;
       shown <- show_each images' ;;
       Return (St.image image 150 :: shown))%outcome
  end.

(** Lines 93 to 97. *)
Definition show_images (images : list string) : outcome (list St.Element) :=
  match images with
  | [] => Return [St.info "No images found."]
  | _ => show_each images
  end.

(** Lines 89 to 100. *)
Definition results (summary : Json) (images : list string) (text : string)
  : outcome (list St.Element) :=
  (shown <- show_images images ;;
   Return ([St.subheader "🧠 Summary"; St.write summary;
            St.subheader "🖼 Extracted Images"]
           ++ shown
           ++ [St.subheader "📝 Extracted Text"; St.write (JStr text)]))%outcome.

(** Lines 72 to 102; the value is the page, element after element, or the
    exception that stopped the run. *)
Definition main : IO (list St.Element) :=
  if clicked then
    if nonempty url then
      (extracted <- Extractor.extract_content_from_url send html_parser
                      _check_bracketed_host _checknetloc_nfkc url ;;
       let '(text, images) := extracted in
       if String.prefix "Error:" text then
         ret (header ++ [St.spinner "Extracting content..."; St.error text])
       else
         summary <- Summarizer.call_gemini_api api_key py_str send text images ;;
         shown <- lift (results summary images text) ;;
         ret (header
              ++ [St.spinner "Extracting content...";
                  St.spinner "Generating summary with Gemini API..."]
              ++ shown))%io
    else ret (header ++ [St.error "Please enter a valid URL."])
  else ret header.

End Run.

End App.

(** ** Blank margins of a text *)

Module Margin.

Import Str.

(** The text begins, or ends, with a whitespace character. *)
Definition starts_blank (s : string) : bool :=
  match s with
  | String a _ => isspace a
  | "" => false
  end.

Fixpoint ends_blank (s : string) : bool :=
  match s with
  | "" => false
  | String a "" => isspace a
  | String _ s' => ends_blank s'
  end.

End Margin.

(** ** More pages, parsers and answers used by the examples *)

Module Samples.

Import Str Py Requests Bs4.

(** A parser that rejects the markup. *)
Definition rejects (_ : string) : outcome (list PageElement) :=
  Raise (mkException "ParserRejectedMarkup"
           "unknown status keyword 'foo' in marked section").

(** [<img src='a.png'><img src='http://['><img src='b.png'>] *)
Definition second_src_bad : list PageElement :=
  [ Tag "img" {[ "src" := "a.png" ]} [];
    Tag "img" {[ "src" := "http://[" ]} [];
    Tag "img" {[ "src" := "b.png" ]} [] ].

(** [<h1>Error: 404 explained</h1><p> </p>] *)
Definition error_article : list PageElement :=
  [ Tag "h1" ∅ [ Text NavigableString "Error: 404 explained" ];
    Tag "p" ∅ [ Text NavigableString " " ] ].

(** [<p> </p><script>x</script>] followed by a comment. *)
Definition blank_page : list PageElement :=
  [ Tag "p" ∅ [ Text NavigableString " " ];
    Tag "script" ∅ [ Text Script "x" ];
    Text Comment "nothing to see" ].

(** [<ruby>kanji<rt>reading</rt></ruby>] *)
Definition ruby : list PageElement :=
  [ Tag "ruby" ∅
      [ Text NavigableString "kanji";
        Tag "rt" ∅ [ Text RubyTextString "reading" ] ] ].

(** [<p>doc.en doc.fr</p>], served with status 300. *)
Definition choices : list PageElement :=
  [ Tag "p" ∅ [ Text NavigableString "doc.en doc.fr" ] ].

Definition multiple_choices (_ : Request) : outcome Response :=
  Return (mkResponse 300 "Multiple Choices" "https://x.com/doc"
            "<p>doc.en doc.fr</p>" (Raise Examples.malformed)).

(** Every status outside 200..299. *)
Definition non_2xx (status_code : Z) : bool :=
  negb ((200 <=? status_code) && (status_code <? 300)).


(** An [st.image] that shows every image. *)
Definition shows (_ : string) (_ : Z) : outcome unit := Return tt.

(** An [st.image] that raises unless the image is an http(s) URL. *)
Definition shows_http (image : string) (_ : Z) : outcome unit :=
  if String.prefix "http://" image || String.prefix "https://" image
  then Return tt
  else Raise (mkException "MediaFileStorageError" ("Error opening '" +:+ image +:+ "'")).

(** An answer with the given status and decoded body. *)
Definition status (code : Z) (reason : string) (body : outcome Json)
    (_ : Request) : outcome Response :=
  Return (mkResponse code reason "https://generativelanguage.googleapis.com/v1beta"
            "" body).

(** The same body served by a cache: another status, reason and final URL. *)
Definition cached (body : string) (_ : Request) : outcome Response :=
  Return (mkResponse 203 "Non-Authoritative Information" "http://cache.example/"
            body (Return JNone)).

(** A candidate stopped before any content was produced. *)
Definition blocked : gmap string Json :=
  {[ "candidates" := JList [ JDict {[ "finishReason" := JStr "SAFETY" ]} ] ]}.

(** A network that serves [page_body] to a GET and [body] to a POST. *)
Definition serves_both (page_body : string) (body : outcome Json)
    (rq : Request) : outcome Response :=
  match rq with
  | GET url _ => Return (mkResponse 200 "OK" url page_body (Raise Examples.malformed))
  | POST url _ _ _ => Return (mkResponse 200 "OK" url "" body)
  end.

End Samples.

(** * Theorems *)

Import Str Py Requests Bs4 Summarizer Extractor Spec.

(** ** The Summarizer *)

(** C3: when no API credential is configured (no [gemini] table in the
    secrets, or no [api_key] in it), the module global is [None], and for
    every text and image list [call_gemini_api] returns exactly
    "Gemini API key not found. Please check your config.toml file." while
    the list of requests sent is left as it was: no network call is made. *)
Theorem call_gemini_api_no_credential
    (secrets : gmap string Toml) py_str send text images sent :
  no_credential secrets ->
  gemini_api_key secrets = Return None
  /\ call_gemini_api None py_str send text images sent
     = (Return (JStr "Gemini API key not found. Please check your config.toml file."),
        sent).
Proof.
  intros Hno. split; [|reflexivity].
  unfold gemini_api_key.
  destruct Hno as [Hnone | (section & Hsec & Hkey)].
  - rewrite Hnone. simpl. apply f_equal, lookup_empty.
  - rewrite Hsec. simpl. now rewrite Hkey.
Qed.

Lemma call_gemini_api_no_credential_witness :
  gemini_api_key {[ "gemini" := TTable {[ "model" := TStr "flash" ]} ]} = Return None
  /\ call_gemini_api None Examples.no_str Examples.unreachable
       "some text" ["https://x.com/a.png"] []
     = (Return (JStr "Gemini API key not found. Please check your config.toml file."),
        []).
Proof.
  apply call_gemini_api_no_credential.
  right. exists {[ "model" := TStr "flash" ]}. split; reflexivity.
Defined.

(** C10: whenever the configured credential is falsy ([None], the empty
    string, zero, [False], an empty array or table), [call_gemini_api]
    returns the "Gemini API key not found. Please check your config.toml
    file." message for every text and image list and sends nothing; in
    particular the empty string gives the very result of a missing key. *)
Theorem call_gemini_api_falsy_credential
    (key : option Toml) py_str send text images sent :
  truthy_opt key = false ->
  call_gemini_api key py_str send text images sent
  = (Return (JStr "Gemini API key not found. Please check your config.toml file."),
     sent)
  /\ call_gemini_api (Some (TStr "")) py_str send text images sent
     = call_gemini_api None py_str send text images sent.
Proof.
  intros Hfalsy. split; [|reflexivity].
  unfold call_gemini_api. now rewrite Hfalsy.
Qed.

Lemma call_gemini_api_falsy_credential_witness :
  call_gemini_api (Some (TStr "")) Examples.no_str Examples.unreachable
    "some text" ["https://x.com/a.png"] []
  = (Return (JStr "Gemini API key not found. Please check your config.toml file."),
     [])
  /\ call_gemini_api (Some (TStr "")) Examples.no_str Examples.unreachable
       "some text" ["https://x.com/a.png"] []
     = call_gemini_api None Examples.no_str Examples.unreachable
         "some text" ["https://x.com/a.png"] [].
Proof.
  apply call_gemini_api_falsy_credential. reflexivity.
Defined.

(** An [api_key] set to the empty string is read as such at line 6. *)
Example empty_api_key_configured :
  gemini_api_key {[ "gemini" := TTable {[ "api_key" := TStr "" ]} ]}
  = Return (Some (TStr "")).
Proof. reflexivity. Qed.

(** A [gemini] entry that is not a table stops the module at line 6. *)
Example gemini_not_a_table :
  gemini_api_key {[ "gemini" := TStr "k3y" ]}
  = Raise (AttributeError "'str' object has no attribute 'get'").
Proof. reflexivity. Qed.

(** Every falsy secret in one list: the empty string, zero, [False], the
    empty array and the empty table. *)
Lemma falsy_secrets :
  Forall (fun v => toml_truthy v = false)
    [TStr ""; TInt 0; TFloat (S754_zero false); TFloat (S754_zero true);
     TBool false; TArray []; TTable ∅].
Proof. repeat constructor. Qed.


(** What a call with a usable credential does, step by step. *)
Lemma call_gemini_api_unfold key py_str send text images sent :
  truthy_opt key = true ->
  call_gemini_api key py_str send text images sent
  = let rq := POST (gemini_url key py_str) (payload text images) headers 30 in
    let answer :=
      (response <- send rq ;;
       raise_for_status response ;;;
       data <- json response ;;
       read_summary data)%outcome in
    (Return match answer with
            | Return summary => summary
            | Raise e => JStr ("Error calling Gemini API: " +:+ exc_str e)
            end,
     sent ++ [rq]).
Proof.
  intros Hkey. unfold call_gemini_api. rewrite Hkey. simpl.
  unfold try_except, request_summary, bind, perform, lift.
  destruct (send _) as [response|e]; simpl; [|reflexivity].
  destruct (raise_for_status response) as [[]|e]; simpl; [|reflexivity].
  destruct (json response) as [data|e]; simpl; [|reflexivity].
  destruct (read_summary data) as [summary|e]; reflexivity.
Qed.









(** The prompt for two pictures, character by character. *)
Example prompt_two_images :
  combined_input "Hello world" ["https://x.com/a.png"; "https://x.com/b.png"]
  = "Web Page Content:" +:+ LF +:+ "Hello world" +:+ LF +:+ LF
    +:+ "Images:" +:+ LF +:+ "https://x.com/a.png, https://x.com/b.png"
    +:+ LF +:+ LF +:+ "Please provide a brief summary of the above content.".
Proof. reflexivity. Qed.

(** C4: on an HTTP success whose body decodes to a JSON object: when
    [candidates] is a non-empty array whose first candidate has a generated
    text, [call_gemini_api] returns that text; when the key is absent or the
    array is empty, it returns exactly "No summary returned from Gemini
    API.". *)
Theorem call_gemini_api_reads_summary
    key py_str send text images sent response (body : gmap string Json) :
  truthy_opt key = true ->
  send (POST (gemini_url key py_str) (payload text images) headers 30)
    = Return response ->
  raise_for_status response = Return tt ->
  json response = Return (JDict body) ->
  (forall candidate others summary,
      body !! "candidates" = Some (JList (candidate :: others)) ->
      generated_text candidate = Some summary ->
      fst (call_gemini_api key py_str send text images sent) = Return summary)
  /\ (body !! "candidates" = None \/ body !! "candidates" = Some (JList []) ->
      fst (call_gemini_api key py_str send text images sent)
      = Return (JStr "No summary returned from Gemini API.")).
Proof.
  intros Hkey Hsend Hstatus Hjson.
  rewrite call_gemini_api_unfold by assumption. simpl.
  rewrite Hsend. simpl. rewrite Hstatus. simpl. rewrite Hjson. simpl.
  unfold read_summary. simpl. split.
  - intros candidate others summary Hcand Htext.
    rewrite Hcand. simpl.
    unfold generated_text in Htext.
    destruct candidate as [| | | | | |c]; try discriminate.
    simpl. destruct (c !! "content") as [[| | | | | |content]|]; try discriminate.
    simpl. destruct (content !! "parts") as [[| | | | |[|[| | | | | |part] ?]|]|];
      try discriminate.
    simpl. now rewrite Htext.
  - intros [Hnone | Hempty].
    + rewrite Hnone. reflexivity.
    + rewrite Hempty. reflexivity.
Qed.

Lemma call_gemini_api_reads_summary_witness :
  fst (call_gemini_api (Some (TStr "k3y")) Examples.no_str
         (Examples.answers (Return (JDict Examples.one_candidate)))
         "Hello world" [] [])
  = Return (JStr "A short page.")
  /\ fst (call_gemini_api (Some (TStr "k3y")) Examples.no_str
            (Examples.answers (Return (JDict {[ "candidates" := JList [] ]})))
            "Hello world" [] [])
     = Return (JStr "No summary returned from Gemini API.").
Proof.
  split.
  - eapply (call_gemini_api_reads_summary (Some (TStr "k3y")) Examples.no_str
              (Examples.answers (Return (JDict Examples.one_candidate)))
              "Hello world" [] [] _ Examples.one_candidate);
      reflexivity.
  - eapply (call_gemini_api_reads_summary (Some (TStr "k3y")) Examples.no_str
              (Examples.answers (Return (JDict {[ "candidates" := JList [] ]})))
              "Hello world" [] [] _ {[ "candidates" := JList [] ]});
      try reflexivity.
    right. reflexivity.
Defined.

(** C5: with a usable credential, whenever the request raises (the network
    fails or times out, the status is an error, the body is not JSON, or the
    decoded body has not the shape the code walks through),
    [call_gemini_api] returns "Error calling Gemini API: " followed by the
    message of the exception, having sent that one request. *)
Theorem call_gemini_api_catches
    key py_str send text images sent (e : Exception) :
  truthy_opt key = true ->
  (send (POST (gemini_url key py_str) (payload text images) headers 30) = Raise e
   \/ (exists response,
         send (POST (gemini_url key py_str) (payload text images) headers 30)
           = Return response
         /\ (raise_for_status response = Raise e
             \/ (raise_for_status response = Return tt
                 /\ (json response = Raise e
                     \/ exists data, json response = Return data
                                     /\ read_summary data = Raise e))))) ->
  call_gemini_api key py_str send text images sent
  = (Return (JStr ("Error calling Gemini API: " +:+ exc_str e)),
     sent ++ [POST (gemini_url key py_str) (payload text images) headers 30]).
Proof.
  intros Hkey Hraise.
  rewrite call_gemini_api_unfold by assumption. simpl.
  destruct Hraise as [Hsend | (response & Hsend & Hrest)];
    rewrite Hsend; simpl; [reflexivity|].
  destruct Hrest as [Hstatus | (Hstatus & Hrest)];
    rewrite Hstatus; simpl; [reflexivity|].
  destruct Hrest as [Hjson | (data & Hjson & Hshape)];
    rewrite Hjson; simpl; [reflexivity|].
  now rewrite Hshape.
Qed.

Lemma call_gemini_api_catches_witness :
  call_gemini_api (Some (TStr "k3y")) Examples.no_str
    (Examples.answers (Raise Examples.malformed)) "Hello world" [] []
  = (Return (JStr ("Error calling Gemini API: "
                   +:+ "Expecting value: line 1 column 1 (char 0)")),
     [POST (gemini_url (Some (TStr "k3y")) Examples.no_str)
        (payload "Hello world" []) headers 30]).
Proof.
  apply (call_gemini_api_catches (Some (TStr "k3y")) Examples.no_str
           (Examples.answers (Raise Examples.malformed)) "Hello world" [] []
           Examples.malformed).
  - reflexivity.
  - right. eexists. split; [reflexivity|].
    right. split; [reflexivity|]. left. reflexivity.
Defined.

(** Bodies of an unexpected shape, and the exception each one raises. *)
Example read_summary_number :
  read_summary (JInt 5)
  = Raise (TypeError "argument of type 'int' is not iterable").
Proof. reflexivity. Qed.

Example read_summary_no_content :
  read_summary (JDict {[ "candidates" := JList [ JDict {[ "finishReason" := JStr "SAFETY" ]} ] ]})
  = Raise (KeyError "'content'").
Proof. reflexivity. Qed.

Example read_summary_candidates_string :
  read_summary (JDict {[ "candidates" := JStr "none" ]})
  = Raise (TypeError "string indices must be integers, not 'str'").
Proof. reflexivity. Qed.

(** A body that is not an object need not raise: an array holds no
    ["candidates"] string, so the call reports that no summary came back. *)
Example read_summary_empty_array :
  read_summary (JList []) = Return (JStr "No summary returned from Gemini API.").
Proof. reflexivity. Qed.

(** ** requests *)

Lemma nonempty_append_r (a b : string) :
  nonempty b = true -> nonempty (a +:+ b) = true.
Proof. destruct a; [trivial | reflexivity]. Qed.

(** [raise_for_status] raises exactly for the statuses 400 to 599. *)
Lemma raise_for_status_error (r : Response) :
  400 <= status_code r < 600 ->
  exists msg, raise_for_status r = Raise (HTTPError msg).
Proof.
  intros Hrange. unfold raise_for_status.
  destruct ((400 <=? status_code r) && (status_code r <? 500)) eqn:H4.
  - rewrite nonempty_append_r by reflexivity. eauto.
  - assert ((500 <=? status_code r) && (status_code r <? 600) = true) as ->.
    { apply andb_true_iff. apply andb_false_iff in H4. split.
      - apply Z.leb_le. destruct H4 as [H4|H4];
          [apply Z.leb_gt in H4 | apply Z.ltb_ge in H4]; lia.
      - apply Z.ltb_lt. lia. }
    rewrite nonempty_append_r by reflexivity. eauto.
Qed.

Lemma raise_for_status_quiet (r : Response) :
  status_code r < 400 \/ 600 <= status_code r ->
  raise_for_status r = Return tt.
Proof.
  intros Hrange. unfold raise_for_status.
  assert ((400 <=? status_code r) && (status_code r <? 500) = false) as ->.
  { apply andb_false_iff. destruct Hrange; [left; apply Z.leb_gt | right; apply Z.ltb_ge]; lia. }
  assert ((500 <=? status_code r) && (status_code r <? 600) = false) as ->.
  { apply andb_false_iff. destruct Hrange; [left; apply Z.leb_gt | right; apply Z.ltb_ge]; lia. }
  reflexivity.
Qed.

(** ** The Extractor *)

(** What the extraction does once the page is fetched. *)
Lemma extract_unfold send html_parser chk_host chk_nfkc url sent :
  extract_content_from_url send html_parser chk_host chk_nfkc url sent
  = let answer :=
      (response <- send (GET url 10) ;;
       raise_for_status response ;;;
       parsed <- html_parser (content response) ;;
       let soup := mkSoup parsed ∅ in
       let soup := decompose_each (find_all ["script"; "style"] soup) soup in
       images <- collect_images chk_host chk_nfkc url (find_all ["img"] soup) [] ;;
       Return (join " " (stripped_strings soup), images))%outcome in
    (Return match answer with
            | Return page => page
            | Raise e => ("Error: " +:+ exc_str e, [])
            end,
     sent ++ [GET url 10]).
Proof.
  unfold extract_content_from_url, try_except, scrape, bind, perform, lift.
  destruct (send _) as [response|e]; simpl; [|reflexivity].
  destruct (raise_for_status response) as [[]|e]; simpl; [|reflexivity].
  destruct (html_parser _) as [parsed|e]; simpl; [|reflexivity].
  destruct (collect_images _ _ _ _ _) as [images|e]; reflexivity.
Qed.

(** C2, as the code has it: whenever the page fetch raises (the request
    itself fails, as on a network error or a timeout, or the status makes
    [raise_for_status] raise, which it does for every status from 400 to
    599 and for no other), the result is the text "Error: " followed by the
    message of the exception, with an empty image list. *)
Theorem extract_fetch_failure
    send html_parser chk_host chk_nfkc url sent :
  (forall e, send (GET url 10) = Raise e ->
     extract_content_from_url send html_parser chk_host chk_nfkc url sent
     = (Return ("Error: " +:+ exc_str e, []), sent ++ [GET url 10]))
  /\ (forall response,
        send (GET url 10) = Return response ->
        (forall e, raise_for_status response = Raise e ->
           extract_content_from_url send html_parser chk_host chk_nfkc url sent
           = (Return ("Error: " +:+ exc_str e, []), sent ++ [GET url 10]))
        /\ (400 <= status_code response < 600 ->
            exists e, raise_for_status response = Raise e)).
Proof.
  split.
  - intros e He. rewrite extract_unfold. simpl. now rewrite He.
  - intros response Hsend. split.
    + intros e He. rewrite extract_unfold. simpl. rewrite Hsend. simpl.
      now rewrite He.
    + intros Hrange. destruct (raise_for_status_error response Hrange) as [msg Hmsg].
      eauto.
Qed.

Lemma extract_fetch_failure_witness :
  extract_content_from_url Examples.unreachable (Examples.parses [])
    Examples.accept Examples.accept "http://10.255.255.1/" []
  = (Return ("Error: " +:+ "Network is unreachable", []),
     [GET "http://10.255.255.1/" 10])
  /\ extract_content_from_url Examples.not_found (Examples.parses [])
       Examples.accept Examples.accept "https://x.com/missing" []
     = (Return ("Error: "
                +:+ "404 Client Error: Not Found for url: https://x.com/missing", []),
        [GET "https://x.com/missing" 10]).
Proof.
  split.
  - apply (proj1 (extract_fetch_failure Examples.unreachable (Examples.parses [])
                    Examples.accept Examples.accept "http://10.255.255.1/" [])
             (mkException "ConnectionError" "Network is unreachable")).
    reflexivity.
  - apply (proj1 (proj2 (extract_fetch_failure Examples.not_found (Examples.parses [])
                           Examples.accept Examples.accept "https://x.com/missing" [])
                    (mkResponse 404 "Not Found" "https://x.com/missing" ""
                       (Raise Examples.malformed)) eq_refl)
             (HTTPError "404 Client Error: Not Found for url: https://x.com/missing")).
    reflexivity.
Defined.

(** C2 as stated fails: an answer with status 300, which is not a 2xx
    status, raises nothing; its body is parsed as any other and the text
    returned is the text of the page, "doc.en doc.fr". *)
Lemma non_2xx_status_is_parsed :
  ~ Contract.fails_on Samples.multiple_choices (Examples.parses Samples.choices)
      Examples.accept Examples.accept "https://x.com/doc" Samples.non_2xx.
Proof.
  intros [_ Hstatus].
  destruct (Hstatus
              (mkResponse 300 "Multiple Choices" "https://x.com/doc"
                 "<p>doc.en doc.fr</p>" (Raise Examples.malformed))
              eq_refl eq_refl) as [message Hresult].
  vm_compute in Hresult. discriminate Hresult.
Qed.

(** What that extraction returns. *)
Example extract_multiple_choices :
  run (extract_content_from_url Samples.multiple_choices
         (Examples.parses Samples.choices) Examples.accept Examples.accept
         "https://x.com/doc")
  = (Return ("doc.en doc.fr", []), [GET "https://x.com/doc" 10]).
Proof. reflexivity. Qed.

(** A final status below 400, such as 304, raises nothing: the body is
    parsed as any other. *)
Example not_modified_is_parsed :
  extract_content_from_url
    (fun _ => Return (mkResponse 304 "Not Modified" "https://x.com/" ""
                        (Raise Examples.malformed)))
    (Examples.parses []) Examples.accept Examples.accept "https://x.com/" []
  = (Return ("", []), [GET "https://x.com/" 10]).
Proof. reflexivity. Qed.

(** ** BeautifulSoup: traversals *)

(** Induction over a parse tree, the children of a tag included. *)
Lemma PageElement_tree_ind (P : PageElement -> Prop) :
  (forall cls s, P (Text cls s)) ->
  (forall name attrs cs, Forall P cs -> P (Tag name attrs cs)) ->
  forall e, P e.
Proof.
  intros HText HTag.
  fix IH 1. intros [cls s | name attrs cs].
  - apply HText.
  - apply HTag. induction cs as [|c cs IHcs]; constructor; [apply IH | exact IHcs].
Qed.

Lemma nodes_Tag name attrs cs :
  nodes (Tag name attrs cs) = Tag name attrs cs :: flat_map nodes cs.
Proof. reflexivity. Qed.

Lemma visible_Tag names name attrs cs :
  visible names (Tag name attrs cs)
  = if in_list name names then []
    else Tag name attrs cs :: flat_map (visible names) cs.
Proof. reflexivity. Qed.

Lemma without_Tag names name attrs cs :
  without names (Tag name attrs cs)
  = if in_list name names then []
    else [Tag name attrs (flat_map (without names) cs)].
Proof. reflexivity. Qed.

Lemma walk_unfold dead p e :
  walk dead p e
  = if bool_decide (p ∈ dead) then []
    else (p, e) :: match e with
                   | Text _ _ => []
                   | Tag _ _ cs => walk_children dead p 0 cs
                   end.
Proof.
  destruct e as [cls s | name attrs cs]; [reflexivity|].
  simpl. destruct (bool_decide (p ∈ dead)); [reflexivity|]. f_equal.
  generalize 0%nat. induction cs as [|c cs IH]; intros i; [reflexivity|].
  simpl. now rewrite IH.
Qed.

Lemma decompose_each_contents tags soup :
  contents (decompose_each tags soup) = contents soup.
Proof.
  revert soup. induction tags as [|t tags IH]; intros soup; [reflexivity|].
  simpl. now rewrite IH.
Qed.

Lemma decompose_each_decomposed tags soup :
  decomposed (decompose_each tags soup) = list_to_set (tags.*1) ∪ decomposed soup.
Proof.
  revert soup. induction tags as [|t tags IH]; intros soup; simpl.
  - set_solver.
  - rewrite IH. simpl. set_solver.
Qed.

(** With nothing destroyed, the traversal lists every object once, at its
    position. *)
Lemma walk_children_positions cs :
  Forall (fun c => forall p q x,
            (q, x) ∈ walk ∅ p c <-> exists r, q = p ++ r /\ elem_at c r = Some x) cs ->
  forall p i q x,
    (q, x) ∈ walk_children ∅ p i cs
    <-> exists j c r, q = p ++ (i + j)%nat :: r /\ cs !! j = Some c
                      /\ elem_at c r = Some x.
Proof.
  induction 1 as [|c cs Hc _ IH]; intros p i q x; simpl.
  - split; [intros Hin; inversion Hin|].
    intros (j & c & r & _ & Hj & _). discriminate.
  - rewrite elem_of_app, Hc, IH. split.
    + intros [(r & -> & Hr) | (j & c' & r & -> & Hj & Hr)].
      * exists 0%nat, c, r. rewrite Nat.add_0_r, <- app_assoc. auto.
      * exists (S j), c', r. rewrite Nat.add_succ_r. auto.
    + intros ([|j] & c' & r & -> & Hj & Hr); simpl in Hj.
      * left. exists r. rewrite Nat.add_0_r, <- app_assoc.
        split; [reflexivity | by simplify_eq].
      * right. exists j, c', r. rewrite Nat.add_succ_r. auto.
Qed.

Lemma walk_positions e p q x :
  (q, x) ∈ walk ∅ p e <-> exists r, q = p ++ r /\ elem_at e r = Some x.
Proof.
  revert p q x. induction e as [cls s | name attrs cs IH] using PageElement_tree_ind;
    intros p q x; rewrite walk_unfold, bool_decide_eq_false_2 by apply not_elem_of_empty.
  - rewrite list_elem_of_singleton. split.
    + intros [= -> ->]. exists []. now rewrite app_nil_r.
    + intros ([|i r] & -> & Hr); [|discriminate].
      rewrite app_nil_r. simpl in Hr. by simplify_eq.
  - rewrite elem_of_cons, (walk_children_positions cs IH). split.
    + intros [[= -> ->] | (j & c & r & -> & Hj & Hr)].
      * exists []. now rewrite app_nil_r.
      * exists (j :: r). simpl. now rewrite Hj.
    + intros ([|j r] & -> & Hr); simpl in Hr.
      * left. rewrite app_nil_r. by simplify_eq.
      * right. destruct (cs !! j) as [c|] eqn:Hj; [|discriminate].
        exists j, c, r. auto.
Qed.

(** Once the objects to leave out are exactly the destroyed ones, the
    traversal lists the visible nodes. *)
Lemma walk_children_visible names dead p cs :
  Forall (fun c => forall p,
            (forall r x, elem_at c r = Some x ->
                         p ++ r ∈ dead <-> is_tag names x = true) ->
            (walk dead p c).*2 = visible names c) cs ->
  forall i,
    (forall j c r x, cs !! j = Some c -> elem_at c r = Some x ->
                     p ++ (i + j)%nat :: r ∈ dead <-> is_tag names x = true) ->
    (walk_children dead p i cs).*2 = flat_map (visible names) cs.
Proof.
  induction 1 as [|c cs Hc _ IH]; intros i Hdead; [reflexivity|].
  simpl. rewrite fmap_app. f_equal.
  - apply Hc. intros r x Hr. rewrite <- app_assoc.
    rewrite <- (Hdead 0%nat c r x eq_refl Hr). now rewrite Nat.add_0_r.
  - apply IH. intros j c' r x Hj Hr.
    rewrite <- (Hdead (S j) c' r x Hj Hr). now rewrite Nat.add_succ_r.
Qed.

Lemma walk_visible names dead e p :
  (forall r x, elem_at e r = Some x -> p ++ r ∈ dead <-> is_tag names x = true) ->
  (walk dead p e).*2 = visible names e.
Proof.
  revert p. induction e as [cls s | name attrs cs IH] using PageElement_tree_ind;
    intros p Hdead; rewrite walk_unfold;
    pose proof (Hdead [] _ eq_refl) as Hhere; rewrite app_nil_r in Hhere.
  - rewrite bool_decide_eq_false_2; [reflexivity|].
    intros Hin. apply Hhere in Hin. discriminate.
  - rewrite visible_Tag. change (in_list name names) with (is_tag names (Tag name attrs cs)).
    destruct (is_tag names (Tag name attrs cs)) eqn:Htag.
    + rewrite bool_decide_eq_true_2; [reflexivity | now apply Hhere].
    + rewrite bool_decide_eq_false_2.
      2:{ intros Hin. apply Hhere in Hin. discriminate. }
      simpl. f_equal. apply walk_children_visible; [exact IH|].
      intros j c r x Hj Hr. apply (Hdead (j :: r)). simpl. now rewrite Hj.
Qed.

Lemma elem_of_bool_filter {A} (f : A -> bool) (l : list A) (x : A) :
  x ∈ List.filter f l <-> x ∈ l /\ f x = true.
Proof. rewrite !list_elem_of_In. apply filter_In. Qed.

(** The loop of lines 55 and 56 leaves visible exactly the nodes outside
    the elements named. *)
Lemma descendants_after_decompose names page :
  (descendants (decompose_each (find_all names (mkSoup page ∅)) (mkSoup page ∅))).*2
  = flat_map (visible names) page.
Proof.
  unfold descendants.
  rewrite decompose_each_contents, decompose_each_decomposed. simpl.
  assert (Hall : Forall (fun c : PageElement => forall p,
            (forall r x, elem_at c r = Some x ->
                         p ++ r ∈ (list_to_set ((find_all names (mkSoup page ∅)).*1) ∪ ∅ : gset Path)
                         <-> is_tag names x = true) ->
            (walk (list_to_set ((find_all names (mkSoup page ∅)).*1) ∪ ∅) p c).*2
            = visible names c) page).
  { apply Forall_forall. intros c _ p. apply walk_visible. }
  apply (walk_children_visible names _ [] page Hall 0%nat).
  intros j c r x Hj Hr. simpl.
  assert (Hpos : forall q y,
             (q, y) ∈ walk_children ∅ [] 0 page
             <-> exists j c r, q = (0 + j)%nat :: r /\ page !! j = Some c
                               /\ elem_at c r = Some y).
  { intros q y. apply (walk_children_positions page).
    apply Forall_forall. intros c' _ p' q' x'. apply walk_positions. }
  rewrite elem_of_union, elem_of_list_to_set, list_elem_of_fmap.
  unfold find_all, descendants. simpl. split.
  - intros [((q & y) & Hq & Hin) | Hin]; [|inversion Hin].
    simpl in Hq. apply elem_of_bool_filter in Hin as [Hin Hy]. simpl in Hy.
    apply Hpos in Hin as (j' & c' & r' & -> & Hj' & Hr').
    injection Hq as Hjj <-. assert (j' = j) as -> by lia.
    rewrite Hj in Hj'. injection Hj' as <-. rewrite Hr in Hr'.
    injection Hr' as <-. exact Hy.
  - intros Hx. left. exists (j :: r, x). split; [reflexivity|].
    apply elem_of_bool_filter. split; [|exact Hx].
    apply Hpos. exists j, c, r. auto.
Qed.

(** ** The page without some elements, against the visible nodes *)

Lemma omap_cons {A B} (f : A -> option B) (x : A) (l : list A) :
  omap f (x :: l) = match f x with
                    | Some y => y :: omap f l
                    | None => omap f l
                    end.
Proof. reflexivity. Qed.

Section LabelOnly.

Context {B : Type} (f : PageElement -> option B).
Hypothesis f_label : forall name attrs cs cs',
  f (Tag name attrs cs) = f (Tag name attrs cs').

Lemma omap_flat_map_nodes_app (l1 l2 : list PageElement) :
  omap f (flat_map nodes (l1 ++ l2))
  = omap f (flat_map nodes l1) ++ omap f (flat_map nodes l2).
Proof. now rewrite flat_map_app, omap_app. Qed.

Lemma omap_without_children names cs :
  Forall (fun c => omap f (flat_map nodes (without names c))
                   = omap f (visible names c)) cs ->
  omap f (flat_map nodes (flat_map (without names) cs))
  = omap f (flat_map (visible names) cs).
Proof.
  induction 1 as [|c cs Hc _ IH]; [reflexivity|].
  simpl. rewrite omap_flat_map_nodes_app, omap_app. now rewrite Hc, IH.
Qed.

Lemma omap_without names e :
  omap f (flat_map nodes (without names e)) = omap f (visible names e).
Proof.
  induction e as [cls s | name attrs cs IH] using PageElement_tree_ind.
  - reflexivity.
  - rewrite without_Tag, visible_Tag.
    destruct (in_list name names); [reflexivity|].
    cbn [flat_map]. rewrite app_nil_r, nodes_Tag, !omap_cons.
    rewrite (f_label name attrs _ cs).
    rewrite (omap_without_children names cs IH). reflexivity.
Qed.

Lemma omap_remove_elements names page :
  omap f (flat_map nodes (remove_elements names page))
  = omap f (flat_map (visible names) page).
Proof.
  apply omap_without_children, Forall_forall. intros c _. apply omap_without.
Qed.

End LabelOnly.

Lemma omap_snd {A B C} (f : B -> option C) (l : list (A * B)) :
  omap (fun t => f (snd t)) l = omap f (l.*2).
Proof.
  induction l as [|t l IH]; [reflexivity|].
  rewrite fmap_cons, !omap_cons, IH. reflexivity.
Qed.

Lemma filter_snd {A B} (h : B -> bool) (l : list (A * B)) :
  (List.filter (fun t => h (snd t)) l).*2 = List.filter h (l.*2).
Proof.
  induction l as [|t l IH]; [reflexivity|].
  rewrite fmap_cons. cbn [List.filter].
  destruct (h (snd t)); [rewrite fmap_cons|]; now rewrite IH.
Qed.

Lemma omap_bool_filter {A B} (g : A -> option B) (h : A -> bool) (l : list A) :
  omap g (List.filter h l) = omap (fun x => if h x then g x else None) l.
Proof.
  induction l as [|x l IH]; [reflexivity|].
  rewrite omap_cons. cbn [List.filter].
  destruct (h x); [rewrite omap_cons|]; now rewrite IH.
Qed.

(** Stripping and dropping the empty strings, node by node or on the list
    of text nodes. *)
Lemma omap_stripped_string (l : list PageElement) :
  omap stripped_string l = List.filter nonempty (List.map strip (omap plain_string l)).
Proof.
  induction l as [|e l IH]; [reflexivity|].
  rewrite !omap_cons.
  destruct e as [cls s | name attrs cs]; cbn [stripped_string plain_string]; [|exact IH].
  destruct (interesting_string cls); [|exact IH].
  cbn [List.map List.filter].
  destruct (nonempty (strip s)); now rewrite IH.
Qed.

(** The text the program joins is the visible text of the page. *)
Lemma stripped_strings_after_decompose page :
  join " " (stripped_strings
              (decompose_each (find_all ["script"; "style"] (mkSoup page ∅))
                              (mkSoup page ∅)))
  = visible_text page.
Proof.
  unfold stripped_strings, visible_text, plain_strings.
  rewrite omap_snd, descendants_after_decompose, omap_stripped_string.
  rewrite (omap_remove_elements plain_string); [reflexivity|].
  reflexivity.
Qed.

(** The [src] attributes the loop of lines 61 to 65 goes through. *)
Lemma img_srcs_after_decompose page :
  omap nonempty_src
    ((find_all ["img"]
        (decompose_each (find_all ["script"; "style"] (mkSoup page ∅))
                        (mkSoup page ∅))).*2)
  = img_srcs (remove_elements ["script"; "style"] page).
Proof.
  unfold find_all at 1, img_srcs, img_elements.
  rewrite filter_snd, descendants_after_decompose, !omap_bool_filter.
  symmetry. apply omap_remove_elements. reflexivity.
Qed.

Lemma collect_images_for_each chk_host chk_nfkc url imgs acc :
  collect_images chk_host chk_nfkc url imgs acc
  = match for_each (urljoin chk_host chk_nfkc url) (omap nonempty_src (imgs.*2)) with
    | Return resolved => Return (acc ++ resolved)
    | Raise e => Raise e
    end.
Proof.
  revert acc. induction imgs as [|img imgs IH]; intros acc; simpl.
  - now rewrite app_nil_r.
  - unfold nonempty_src at 1.
    destruct (get (snd img) "src") as [src|]; [|apply IH].
    destruct (nonempty src); [|apply IH]. simpl.
    destruct (urljoin chk_host chk_nfkc url src) as [absolute_url|e]; [|reflexivity].
    rewrite IH.
    destruct (for_each _ _) as [resolved|e]; [|reflexivity].
    now rewrite <- app_assoc.
Qed.

(** The whole extraction of a page that was fetched and parsed. *)
Lemma extract_page send html_parser chk_host chk_nfkc url sent response page :
  send (GET url 10) = Return response ->
  raise_for_status response = Return tt ->
  html_parser (content response) = Return page ->
  extract_content_from_url send html_parser chk_host chk_nfkc url sent
  = (Return match for_each (urljoin chk_host chk_nfkc url)
                    (img_srcs (remove_elements ["script"; "style"] page)) with
            | Return images => (visible_text page, images)
            | Raise e => ("Error: " +:+ exc_str e, [])
            end,
     sent ++ [GET url 10]).
Proof.
  intros Hsend Hstatus Hparse.
  rewrite extract_unfold. simpl. rewrite Hsend. simpl. rewrite Hstatus. simpl.
  rewrite Hparse. simpl.
  rewrite collect_images_for_each, img_srcs_after_decompose.
  rewrite stripped_strings_after_decompose.
  destruct (for_each _ _) as [images|e]; reflexivity.
Qed.

(** No visible node is one of the elements left out. *)
Lemma visible_free names e :
  Forall (fun x => is_tag names x = false) (visible names e).
Proof.
  induction e as [cls s | name attrs cs IH] using PageElement_tree_ind.
  - repeat constructor.
  - rewrite visible_Tag. destruct (in_list name names) eqn:Hname; constructor.
    + exact Hname.
    + induction IH as [|c cs Hc _ IHcs]; [constructor|].
      simpl. apply Forall_app. auto.
Qed.

Lemma descendants_free names page :
  Forall (fun t => is_tag names (snd t) = false)
    (descendants (decompose_each (find_all names (mkSoup page ∅)) (mkSoup page ∅))).
Proof.
  apply Forall_fmap with (f := snd) (P := fun x => is_tag names x = false).
  rewrite descendants_after_decompose.
  induction page as [|c page IH]; [constructor|].
  simpl. apply Forall_app. split; [apply visible_free | exact IH].
Qed.

(** On a page as the parser builds it, removing [script] and [style] loses
    no [img] element. *)
Lemma in_list_script_style_not_img name :
  in_list name ["script"; "style"] = true -> in_list name ["img"] = false.
Proof.
  unfold in_list. simpl. rewrite !orb_false_r.
  intros [H|H]%orb_true_iff; apply String.eqb_eq in H; subst; reflexivity.
Qed.

Lemma raw_text_ok_Tag name attrs cs :
  raw_text_ok (Tag name attrs cs)
  = if in_list name ["script"; "style"]
    then forallb (fun c => match c with Text _ _ => true | _ => false end) cs
    else forallb raw_text_ok cs.
Proof. reflexivity. Qed.

Lemma inside_script_Tag name attrs cs :
  inside_script (Tag name attrs cs)
  = String.eqb name "script"
    || (negb (String.eqb name "img") && forallb inside_script cs).
Proof. reflexivity. Qed.

Lemma img_srcs_raw_text e :
  raw_text_ok e = true ->
  omap (fun x => if is_tag ["img"] x then nonempty_src x else None)
    (flat_map nodes (without ["script"; "style"] e))
  = omap (fun x => if is_tag ["img"] x then nonempty_src x else None) (nodes e).
Proof.
  induction e as [cls s | name attrs cs IH] using PageElement_tree_ind; intros Hok.
  - reflexivity.
  - rewrite without_Tag, nodes_Tag, omap_cons. rewrite raw_text_ok_Tag in Hok.
    destruct (in_list name ["script"; "style"]) eqn:Hname.
    + cbn [is_tag]. rewrite (in_list_script_style_not_img name Hname).
      clear IH. induction cs as [|c cs IHcs]; [reflexivity|].
      simpl in Hok. apply andb_true_iff in Hok as [Hc Hcs].
      destruct c as [cls s|]; [|discriminate].
      simpl. apply IHcs, Hcs.
    + cbn [flat_map]. rewrite app_nil_r, nodes_Tag, omap_cons.
      change (is_tag ["img"] (Tag name attrs (flat_map (without ["script"; "style"]) cs)))
        with (is_tag ["img"] (Tag name attrs cs)).
      change (nonempty_src (Tag name attrs (flat_map (without ["script"; "style"]) cs)))
        with (nonempty_src (Tag name attrs cs)).
      assert (Hcs : omap (fun x => if is_tag ["img"] x then nonempty_src x else None)
                      (flat_map nodes (flat_map (without ["script"; "style"]) cs))
                    = omap (fun x => if is_tag ["img"] x then nonempty_src x else None)
                        (flat_map nodes cs)).
      { induction IH as [|c cs Hc _ IHcs]; [reflexivity|].
        simpl in Hok. apply andb_true_iff in Hok as [Hokc Hokcs].
        simpl. rewrite !flat_map_app, !omap_app, Hc, IHcs by assumption.
        reflexivity. }
      now rewrite Hcs.
Qed.

Lemma img_srcs_remove_elements page :
  forallb raw_text_ok page = true ->
  img_srcs (remove_elements ["script"; "style"] page) = img_srcs page.
Proof.
  intros Hok. unfold img_srcs, img_elements. rewrite !omap_bool_filter.
  induction page as [|c page IH]; [reflexivity|].
  simpl in Hok. apply andb_true_iff in Hok as [Hc Hpage].
  unfold remove_elements. simpl.
  rewrite !flat_map_app, !omap_app, img_srcs_raw_text by assumption.
  f_equal. apply IH, Hpage.
Qed.

(** A page whose content is all inside [script] elements has neither
    visible text nor a visible [img]. *)
Lemma inside_script_nodes e :
  inside_script e = true ->
  Forall (fun x => plain_string x = None /\ is_tag ["img"] x = false)
    (flat_map nodes (without ["script"; "style"] e)).
Proof.
  induction e as [cls s | name attrs cs IH] using PageElement_tree_ind; intros Hin.
  - discriminate.
  - rewrite without_Tag. rewrite inside_script_Tag in Hin.
    destruct (in_list name ["script"; "style"]) eqn:Hname; [constructor|].
    assert (String.eqb name "script" = false) as Hscript.
    { unfold in_list in Hname. simpl in Hname.
      now apply orb_false_iff in Hname as [? _]. }
    rewrite Hscript in Hin. simpl in Hin.
    apply andb_true_iff in Hin as [Himg Hcs].
    cbn [flat_map]. rewrite app_nil_r, nodes_Tag. constructor.
    + split; [reflexivity|]. unfold is_tag, in_list. simpl.
      apply negb_true_iff in Himg. now rewrite Himg.
    + clear Himg Hscript Hname.
      induction IH as [|c cs Hc _ IHcs]; [constructor|].
      simpl in Hcs. apply andb_true_iff in Hcs as [Hokc Hokcs].
      simpl. rewrite flat_map_app. apply Forall_app. auto.
Qed.

Lemma omap_all_None {A B} (f : A -> option B) (l : list A) :
  Forall (fun x => f x = None) l -> omap f l = [].
Proof.
  induction 1 as [|x l Hx _ IH]; [reflexivity|].
  now rewrite omap_cons, Hx.
Qed.

Lemma inside_script_page page :
  forallb inside_script page = true ->
  visible_text page = "" /\ img_srcs (remove_elements ["script"; "style"] page) = [].
Proof.
  intros Hin.
  assert (Hall : Forall (fun x => plain_string x = None /\ is_tag ["img"] x = false)
                   (flat_map nodes (remove_elements ["script"; "style"] page))).
  { unfold remove_elements. induction page as [|c page IH]; [constructor|].
    simpl in Hin. apply andb_true_iff in Hin as [Hc Hpage].
    simpl. rewrite flat_map_app. apply Forall_app. split.
    - now apply inside_script_nodes.
    - apply IH, Hpage. }
  split.
  - unfold visible_text, plain_strings. rewrite omap_all_None; [reflexivity|].
    eapply Forall_impl; [exact Hall|]. now intros x [? _].
  - unfold img_srcs, img_elements. rewrite omap_bool_filter.
    apply omap_all_None. eapply Forall_impl; [exact Hall|].
    intros x [_ Himg]. now rewrite Himg.
Qed.

(** The loop that resolves: all succeed, or the first failure is raised. *)
Lemma for_each_all {A B} (f : A -> outcome B) (l : list A) :
  Forall (fun x => exists y, f x = Return y) l ->
  exists ys, for_each f l = Return ys /\ Forall2 (fun x y => f x = Return y) l ys.
Proof.
  induction 1 as [|x l [y Hy] _ (ys & Hys & Hall)].
  - exists []. split; [reflexivity | constructor].
  - exists (y :: ys). simpl. rewrite Hy, Hys. split; [reflexivity|].
    constructor; assumption.
Qed.

Lemma for_each_Return {A B} (f : A -> outcome B) (l : list A) (ys : list B) :
  for_each f l = Return ys -> Forall2 (fun x y => f x = Return y) l ys.
Proof.
  revert ys. induction l as [|x l IH]; intros ys; simpl.
  - intros [= <-]. constructor.
  - destruct (f x) as [y|e] eqn:Hy; [|discriminate].
    destruct (for_each f l) as [ys'|e]; [|discriminate].
    intros [= <-]. constructor; [exact Hy | now apply IH].
Qed.

Lemma length_omap_nonempty_src (l : list PageElement) :
  length (omap nonempty_src l) = length (List.filter has_nonempty_src l).
Proof.
  induction l as [|e l IH]; [reflexivity|].
  rewrite omap_cons. cbn [List.filter]. unfold has_nonempty_src at 1.
  destruct (nonempty_src e); simpl; now rewrite IH.
Qed.

(** C9: resolving the relative reference "../a.png" against the page URL
    "https://x.com/b/c" gives exactly "https://x.com/a.png", and that is the
    entry the Extractor returns for a page fetched at that URL whose only
    element is an [img] with this [src]. *)
Theorem urljoin_parent_directory chk_host chk_nfkc :
  urljoin chk_host chk_nfkc "https://x.com/b/c" "../a.png"
  = Return "https://x.com/a.png"
  /\ (forall send html_parser response,
        send (GET "https://x.com/b/c" 10) = Return response ->
        raise_for_status response = Return tt ->
        html_parser (content response)
          = Return [ Tag "img" {[ "src" := "../a.png" ]} [] ] ->
        fst (run (extract_content_from_url send html_parser chk_host chk_nfkc
                    "https://x.com/b/c"))
        = Return ("", ["https://x.com/a.png"])).
Proof.
  split; [reflexivity|].
  intros send html_parser response Hsend Hstatus Hparse.
  unfold run. rewrite (extract_page _ _ _ _ _ _ _ _ Hsend Hstatus Hparse).
  reflexivity.
Qed.

Lemma urljoin_parent_directory_witness :
  fst (run (extract_content_from_url
              (Examples.serves "https://x.com/b/c" "<img src='../a.png'>")
              (Examples.parses [ Tag "img" {[ "src" := "../a.png" ]} [] ])
              Examples.accept Examples.accept "https://x.com/b/c"))
  = Return ("", ["https://x.com/a.png"]).
Proof.
  eapply (urljoin_parent_directory Examples.accept Examples.accept); reflexivity.
Defined.

(** C1, as the code has it: every non-empty [src] of an [img] element met
    during the extraction is resolved against the URL given to
    [extract_content_from_url] (the URL requested, whatever URL the response
    reports after redirects), and the absolute URLs obtained, in the same
    order, are the image list, whenever each of them resolves. *)
Theorem images_resolved_against_requested_url
    send html_parser chk_host chk_nfkc url response page absolute_urls :
  send (GET url 10) = Return response ->
  raise_for_status response = Return tt ->
  html_parser (content response) = Return page ->
  for_each (urljoin chk_host chk_nfkc url)
    (img_srcs (remove_elements ["script"; "style"] page)) = Return absolute_urls ->
  fst (run (extract_content_from_url send html_parser chk_host chk_nfkc url))
  = Return (visible_text page, absolute_urls)
  /\ Forall2 (fun src absolute_url =>
                urljoin chk_host chk_nfkc url src = Return absolute_url)
       (img_srcs (remove_elements ["script"; "style"] page)) absolute_urls.
Proof.
  intros Hsend Hstatus Hparse Hresolve. split.
  - unfold run. rewrite (extract_page _ _ _ _ _ _ _ _ Hsend Hstatus Hparse).
    now rewrite Hresolve.
  - now apply for_each_Return.
Qed.

Lemma images_resolved_against_requested_url_witness :
  fst (run (extract_content_from_url
              (Examples.serves "http://b.example/other/" "<img src='pic.png'>")
              (Examples.parses Examples.one_image)
              Examples.accept Examples.accept "http://a.example/dir/page"))
  = Return (visible_text Examples.one_image, ["http://a.example/dir/pic.png"])
  /\ Forall2 (fun src absolute_url =>
                urljoin Examples.accept Examples.accept
                  "http://a.example/dir/page" src = Return absolute_url)
       (img_srcs (remove_elements ["script"; "style"] Examples.one_image))
       ["http://a.example/dir/pic.png"].
Proof.
  eapply (images_resolved_against_requested_url
            (Examples.serves "http://b.example/other/" "<img src='pic.png'>")
            (Examples.parses Examples.one_image)
            Examples.accept Examples.accept "http://a.example/dir/page");
    reflexivity.
Defined.

(** C1 as stated fails: a request for "http://a.example/dir/page" answered,
    after a redirect, from "http://b.example/other/" with the page
    [<img src='pic.png'>] yields "http://a.example/dir/pic.png", not the
    resolution "http://b.example/other/pic.png" against the final URL. *)
Lemma images_not_resolved_against_final_url :
  ~ Contract.resolves_against
      (Examples.serves "http://b.example/other/" "<img src='pic.png'>")
      (Examples.parses Examples.one_image)
      Examples.accept Examples.accept "http://a.example/dir/page"
      Requests.url.
Proof.
  intros Hclaim.
  destruct (Hclaim
              (mkResponse 200 "OK" "http://b.example/other/" "<img src='pic.png'>"
                 (Raise Examples.malformed))
              Examples.one_image ["http://b.example/other/pic.png"])
    as [text Htext].
  - repeat split.
  - reflexivity.
  - vm_compute in Htext. discriminate Htext.
Qed.

Lemma omap_agree {A B} (f g : A -> option B) (l : list A) :
  Forall (fun x => f x = g x) l -> omap f l = omap g l.
Proof.
  induction 1 as [|x l Hx _ IH]; [reflexivity|].
  now rewrite !omap_cons, Hx, IH.
Qed.

(** C6, as the code has it: for a page fetched and parsed, no [script] or
    [style] element is left among the nodes the text is read from; when
    every [src] met resolves, the text returned is made of the remaining
    strings of class [NavigableString] or [CData] (the text nodes that are
    neither comments nor held by [template], [rt] or [rp] elements), each
    stripped, the empty ones dropped, joined by single spaces, in document
    order; this is the text of all remaining text nodes whenever none of
    them is of another class; and a page whose content is all inside
    [script] elements gives the empty text. *)
Theorem extract_visible_text
    send html_parser chk_host chk_nfkc url response page :
  send (GET url 10) = Return response ->
  raise_for_status response = Return tt ->
  html_parser (content response) = Return page ->
  Forall (fun t => is_tag ["script"; "style"] (snd t) = false)
    (descendants (decompose_each (find_all ["script"; "style"] (mkSoup page ∅))
                                 (mkSoup page ∅)))
  /\ (Forall (fun src => exists absolute_url,
                urljoin chk_host chk_nfkc url src = Return absolute_url)
        (img_srcs (remove_elements ["script"; "style"] page)) ->
      exists images,
        fst (run (extract_content_from_url send html_parser chk_host chk_nfkc url))
        = Return (visible_text page, images))
  /\ (Forall (fun e => text_of e = plain_string e)
        (flat_map nodes (remove_elements ["script"; "style"] page)) ->
      visible_text page = all_text page)
  /\ (forallb inside_script page = true ->
      fst (run (extract_content_from_url send html_parser chk_host chk_nfkc url))
      = Return ("", [])).
Proof.
  intros Hsend Hstatus Hparse. split; [apply descendants_free|].
  unfold run. rewrite (extract_page _ _ _ _ _ _ _ _ Hsend Hstatus Hparse).
  split; [|split].
  - intros Hall. apply for_each_all in Hall as (images & -> & _).
    exists images. reflexivity.
  - intros Hplain. unfold visible_text, all_text, plain_strings, text_nodes.
    now rewrite (omap_agree _ _ _ Hplain).
  - intros Hin. apply inside_script_page in Hin as [-> ->]. reflexivity.
Qed.

Lemma extract_visible_text_witness :
  (exists images,
     fst (run (extract_content_from_url
                 (Examples.serves "https://x.com/b/c" "<html>")
                 (Examples.parses Examples.sample)
                 Examples.accept Examples.accept "https://x.com/b/c"))
     = Return ("Hello world", images))
  /\ fst (run (extract_content_from_url
                 (Examples.serves "https://x.com/b/c" "<html>")
                 (Examples.parses Examples.script_only)
                 Examples.accept Examples.accept "https://x.com/b/c"))
     = Return ("", []).
Proof.
  split.
  - apply (proj1 (proj2 (extract_visible_text
             (Examples.serves "https://x.com/b/c" "<html>")
             (Examples.parses Examples.sample)
             Examples.accept Examples.accept "https://x.com/b/c"
             (mkResponse 200 "OK" "https://x.com/b/c" "<html>"
                (Raise Examples.malformed))
             Examples.sample eq_refl eq_refl eq_refl))).
    repeat constructor; eexists; reflexivity.
  - apply (proj2 (proj2 (proj2 (extract_visible_text
             (Examples.serves "https://x.com/b/c" "<html>")
             (Examples.parses Examples.script_only)
             Examples.accept Examples.accept "https://x.com/b/c"
             (mkResponse 200 "OK" "https://x.com/b/c" "<html>"
                (Raise Examples.malformed))
             Examples.script_only eq_refl eq_refl eq_refl)))).
    reflexivity.
Defined.

(** C6 as stated fails, twice over. The page [<p>hi</p><img src='http://['>]
    is fetched and parsed and its text is "hi", but resolving the [src]
    raises (an opening bracket without its closing one), so the text
    returned is "Error: Invalid IPv6 URL". And of the page
    [<ruby>kanji<rt>reading</rt></ruby>], whose text nodes outside [script]
    and [style] read "kanji reading", the text returned is "kanji": the
    string held by [rt] is of a class the traversal leaves out. *)
Lemma text_lost_on_bad_src_and_in_ruby :
  ~ Contract.returns_visible_text
      (Examples.serves "https://x.com/" "<p>hi</p><img src='http://['>")
      (Examples.parses Examples.bad_src)
      Examples.accept Examples.accept "https://x.com/"
  /\ ~ Contract.returns_visible_text
        (Examples.serves "https://x.com/" "<ruby>kanji<rt>reading</rt></ruby>")
        (Examples.parses Samples.ruby)
        Examples.accept Examples.accept "https://x.com/".
Proof.
  split; intros Hclaim.
  - destruct (Hclaim
                (mkResponse 200 "OK" "https://x.com/" "<p>hi</p><img src='http://['>"
                   (Raise Examples.malformed))
                Examples.bad_src)
      as [images Himages].
    + repeat split.
    + vm_compute in Himages. discriminate Himages.
  - destruct (Hclaim
                (mkResponse 200 "OK" "https://x.com/"
                   "<ruby>kanji<rt>reading</rt></ruby>" (Raise Examples.malformed))
                Samples.ruby)
      as [images Himages].
    + repeat split.
    + vm_compute in Himages. discriminate Himages.
Qed.

(** What the extraction of the second page returns, against all its text. *)
Example extract_ruby :
  run (extract_content_from_url
         (Examples.serves "https://x.com/" "<ruby>kanji<rt>reading</rt></ruby>")
         (Examples.parses Samples.ruby)
         Examples.accept Examples.accept "https://x.com/")
  = (Return ("kanji", []), [GET "https://x.com/" 10])
  /\ all_text Samples.ruby = "kanji reading".
Proof. split; reflexivity. Qed.

(** What that extraction returns. *)
Example extract_bad_src :
  run (extract_content_from_url
         (Examples.serves "https://x.com/" "<p>hi</p><img src='http://['>")
         (Examples.parses Examples.bad_src)
         Examples.accept Examples.accept "https://x.com/")
  = (Return ("Error: Invalid IPv6 URL", []), [GET "https://x.com/" 10]).
Proof. reflexivity. Qed.

(** C8, as the code has it: for a page fetched and parsed on which every
    [src] met resolves, the image list has exactly one entry for each [img]
    element with a non-empty [src], each entry being the resolution of that
    [src], in document order; an [img] with no [src] or an empty one adds
    nothing, and equal URLs are all kept, with no bound on their number. On
    a page as the parser builds it (raw text only inside [script] and
    [style]) these are all the [img] elements of the page. *)
Theorem extract_lists_every_img
    send html_parser chk_host chk_nfkc url response page :
  send (GET url 10) = Return response ->
  raise_for_status response = Return tt ->
  html_parser (content response) = Return page ->
  Forall (fun src => exists absolute_url,
            urljoin chk_host chk_nfkc url src = Return absolute_url)
    (img_srcs (remove_elements ["script"; "style"] page)) ->
  exists images,
    fst (run (extract_content_from_url send html_parser chk_host chk_nfkc url))
    = Return (visible_text page, images)
    /\ Forall2 (fun src absolute_url =>
                  urljoin chk_host chk_nfkc url src = Return absolute_url)
         (img_srcs (remove_elements ["script"; "style"] page)) images
    /\ length images
       = length (List.filter has_nonempty_src
                   (img_elements (remove_elements ["script"; "style"] page)))
    /\ (forallb raw_text_ok page = true ->
        img_srcs (remove_elements ["script"; "style"] page) = img_srcs page).
Proof.
  intros Hsend Hstatus Hparse Hall.
  apply for_each_all in Hall as (images & Himages & Hall).
  exists images. split; [|split; [exact Hall | split]].
  - unfold run. rewrite (extract_page _ _ _ _ _ _ _ _ Hsend Hstatus Hparse).
    now rewrite Himages.
  - rewrite <- (Forall2_length _ _ _ Hall). apply length_omap_nonempty_src.
  - apply img_srcs_remove_elements.
Qed.

Lemma extract_lists_every_img_witness :
  exists images,
    fst (run (extract_content_from_url
                (Examples.serves "https://x.com/b/c" "<html>")
                (Examples.parses Examples.sample)
                Examples.accept Examples.accept "https://x.com/b/c"))
    = Return (visible_text Examples.sample, images)
    /\ Forall2 (fun src absolute_url =>
                  urljoin Examples.accept Examples.accept "https://x.com/b/c" src
                  = Return absolute_url)
         (img_srcs (remove_elements ["script"; "style"] Examples.sample)) images
    /\ length images
       = length (List.filter has_nonempty_src
                   (img_elements (remove_elements ["script"; "style"] Examples.sample)))
    /\ (forallb raw_text_ok Examples.sample = true ->
        img_srcs (remove_elements ["script"; "style"] Examples.sample)
        = img_srcs Examples.sample).
Proof.
  apply (extract_lists_every_img
           (Examples.serves "https://x.com/b/c" "<html>")
           (Examples.parses Examples.sample)
           Examples.accept Examples.accept "https://x.com/b/c"
           (mkResponse 200 "OK" "https://x.com/b/c" "<html>"
              (Raise Examples.malformed))
           Examples.sample eq_refl eq_refl eq_refl).
  repeat constructor; eexists; reflexivity.
Defined.

(** The sample page: the picture referenced twice is listed twice, the
    [img] elements without a usable [src] are not listed. *)
Example extract_sample :
  run (extract_content_from_url
         (Examples.serves "https://x.com/b/c" "<html>")
         (Examples.parses Examples.sample)
         Examples.accept Examples.accept "https://x.com/b/c")
  = (Return ("Hello world", ["https://x.com/a.png"; "https://x.com/a.png"]),
     [GET "https://x.com/b/c" 10]).
Proof. reflexivity. Qed.

(** C8 as stated fails: the page [<p>hi</p><img src='http://['>] is fetched
    and parsed and has one [img] with a non-empty [src], but the image list
    returned is empty. *)
Lemma img_missing_on_bad_src :
  ~ Contract.lists_every_img
      (Examples.serves "https://x.com/" "<p>hi</p><img src='http://['>")
      (Examples.parses Examples.bad_src)
      Examples.accept Examples.accept "https://x.com/".
Proof.
  intros Hclaim.
  destruct (Hclaim
              (mkResponse 200 "OK" "https://x.com/" "<p>hi</p><img src='http://['>"
                 (Raise Examples.malformed))
              Examples.bad_src)
    as (text & images & Hresult & Hall).
  - repeat split.
  - vm_compute in Hresult. injection Hresult as _ <-.
    apply Forall2_length in Hall. vm_compute in Hall. discriminate Hall.
Qed.

(** * Further properties of the code *)

(** ** The Extractor never raises *)

(** X1: whatever the network, the parser and the page do,
    [extract_content_from_url] returns a pair (it never raises) and has made
    exactly one request, the GET of the given URL with a timeout of 10. *)
Theorem extract_always_returns send html_parser chk_host chk_nfkc url sent :
  exists text images,
    extract_content_from_url send html_parser chk_host chk_nfkc url sent
    = (Return (text, images), sent ++ [GET url 10]).
Proof.
  rewrite extract_unfold. cbv zeta.
  match goal with |- context [match ?a with Return _ => _ | Raise _ => _ end] =>
    destruct a as [[text images]|e] end; eauto.
Qed.

(** X2: [call_gemini_api] never raises either, and sends at most one
    request: none without a usable credential, otherwise the POST to the
    endpoint with the key in the query, the JSON content type and a timeout
    of 30. *)
Theorem call_gemini_api_always_returns key py_str send text images sent :
  exists summary,
    call_gemini_api key py_str send text images sent
    = (Return summary,
       if truthy_opt key
       then sent ++ [POST (endpoint +:+ format_key key py_str)
                       (payload text images)
                       [("Content-Type", "application/json")] 30]
       else sent).
Proof.
  destruct (truthy_opt key) eqn:Hkey.
  - rewrite call_gemini_api_unfold by assumption. eauto.
  - unfold call_gemini_api. rewrite Hkey. simpl. eauto.
Qed.

(** The loop stops at the first element that raises. *)
Lemma for_each_first_failure {A B} (f : A -> outcome B) good bad rest e :
  Forall (fun x => exists y, f x = Return y) good ->
  f bad = Raise e ->
  for_each f (good ++ bad :: rest) = Raise e.
Proof.
  intros Hgood Hbad. induction Hgood as [|x good [y Hy] _ IH]; simpl.
  - now rewrite Hbad.
  - now rewrite Hy, IH.
Qed.

(** X3: when the [src] of an [img] cannot be resolved, the extraction of a
    fetched and parsed page returns "Error: " followed by the message of the
    first such failure in document order, with an empty image list: the URLs
    resolved before it are dropped. *)
Theorem extract_first_bad_src
    send html_parser chk_host chk_nfkc url sent response page good bad rest e :
  send (GET url 10) = Return response ->
  raise_for_status response = Return tt ->
  html_parser (content response) = Return page ->
  img_srcs (remove_elements ["script"; "style"] page) = good ++ bad :: rest ->
  Forall (fun src => exists absolute_url,
            urljoin chk_host chk_nfkc url src = Return absolute_url) good ->
  urljoin chk_host chk_nfkc url bad = Raise e ->
  extract_content_from_url send html_parser chk_host chk_nfkc url sent
  = (Return ("Error: " +:+ exc_str e, []), sent ++ [GET url 10]).
Proof.
  intros Hsend Hstatus Hparse Hsrcs Hgood Hbad.
  rewrite (extract_page _ _ _ _ _ _ _ _ Hsend Hstatus Hparse), Hsrcs.
  now rewrite (for_each_first_failure _ good bad rest e Hgood Hbad).
Qed.

(** X4: when the HTML parser rejects the body of a fetched page, the result
    is "Error: " followed by the parser's message, with an empty image
    list. *)
Theorem extract_parser_failure
    send html_parser chk_host chk_nfkc url sent response e :
  send (GET url 10) = Return response ->
  raise_for_status response = Return tt ->
  html_parser (content response) = Raise e ->
  extract_content_from_url send html_parser chk_host chk_nfkc url sent
  = (Return ("Error: " +:+ exc_str e, []), sent ++ [GET url 10]).
Proof.
  intros Hsend Hstatus Hparse. rewrite extract_unfold. simpl.
  rewrite Hsend. simpl. rewrite Hstatus. simpl. now rewrite Hparse.
Qed.

(** X5: of a response the extraction reads the status (through
    [raise_for_status]) and the content, nothing else: two accepted
    responses with the same content give the same text and images, whatever
    their final URL, reason or status. *)
Theorem extract_reads_content_only
    send1 send2 html_parser chk_host chk_nfkc url response1 response2 :
  send1 (GET url 10) = Return response1 ->
  send2 (GET url 10) = Return response2 ->
  raise_for_status response1 = Return tt ->
  raise_for_status response2 = Return tt ->
  content response1 = content response2 ->
  fst (run (extract_content_from_url send1 html_parser chk_host chk_nfkc url))
  = fst (run (extract_content_from_url send2 html_parser chk_host chk_nfkc url)).
Proof.
  intros Hsend1 Hsend2 Hstatus1 Hstatus2 Hcontent.
  unfold run. rewrite !extract_unfold. simpl.
  rewrite Hsend1, Hsend2. simpl. rewrite Hstatus1, Hstatus2. simpl.
  now rewrite Hcontent.
Qed.

(** X6: a non-empty image list certifies the text: when the extraction of a
    fetched and parsed page returns at least one image, every [src] was
    resolved and the text is the visible text of the page, not an error
    message. *)
Theorem extract_images_certify_text
    send html_parser chk_host chk_nfkc url response page text images :
  send (GET url 10) = Return response ->
  raise_for_status response = Return tt ->
  html_parser (content response) = Return page ->
  fst (run (extract_content_from_url send html_parser chk_host chk_nfkc url))
  = Return (text, images) ->
  images <> [] ->
  text = visible_text page
  /\ for_each (urljoin chk_host chk_nfkc url)
       (img_srcs (remove_elements ["script"; "style"] page)) = Return images.
Proof.
  intros Hsend Hstatus Hparse Hresult Himages. unfold run in Hresult.
  rewrite (extract_page _ _ _ _ _ _ _ _ Hsend Hstatus Hparse) in Hresult.
  simpl in Hresult.
  destruct (for_each _ _) as [resolved|e]; injection Hresult as <- <-.
  - auto.
  - congruence.
Qed.

Lemma extract_first_bad_src_witness :
  extract_content_from_url
    (Examples.serves "https://x.com/" "<img src='a.png'><img src='http://['><img src='b.png'>")
    (Examples.parses Samples.second_src_bad)
    Examples.accept Examples.accept "https://x.com/" []
  = (Return ("Error: " +:+ "Invalid IPv6 URL", []), [GET "https://x.com/" 10]).
Proof.
  apply (extract_first_bad_src
           (Examples.serves "https://x.com/"
              "<img src='a.png'><img src='http://['><img src='b.png'>")
           (Examples.parses Samples.second_src_bad)
           Examples.accept Examples.accept "https://x.com/" []
           (mkResponse 200 "OK" "https://x.com/"
              "<img src='a.png'><img src='http://['><img src='b.png'>"
              (Raise Examples.malformed))
           Samples.second_src_bad ["a.png"] "http://[" ["b.png"]
           (mkException "ValueError" "Invalid IPv6 URL"));
    try reflexivity.
  repeat constructor. eexists. reflexivity.
Defined.

Lemma extract_parser_failure_witness :
  extract_content_from_url
    (Examples.serves "https://x.com/" "<![foo[bar]]>")
    Samples.rejects Examples.accept Examples.accept "https://x.com/" []
  = (Return ("Error: " +:+ "unknown status keyword 'foo' in marked section", []),
     [GET "https://x.com/" 10]).
Proof.
  apply (extract_parser_failure
           (Examples.serves "https://x.com/" "<![foo[bar]]>")
           Samples.rejects Examples.accept Examples.accept "https://x.com/" []
           (mkResponse 200 "OK" "https://x.com/" "<![foo[bar]]>"
              (Raise Examples.malformed))
           (mkException "ParserRejectedMarkup"
              "unknown status keyword 'foo' in marked section"));
    reflexivity.
Defined.

Lemma extract_reads_content_only_witness :
  fst (run (extract_content_from_url
              (Examples.serves "http://b.example/other/" "<img src='pic.png'>")
              (Examples.parses Examples.one_image)
              Examples.accept Examples.accept "http://a.example/dir/page"))
  = fst (run (extract_content_from_url
                (Samples.cached "<img src='pic.png'>")
                (Examples.parses Examples.one_image)
                Examples.accept Examples.accept "http://a.example/dir/page")).
Proof.
  eapply (extract_reads_content_only
            (Examples.serves "http://b.example/other/" "<img src='pic.png'>")
            (Samples.cached "<img src='pic.png'>"));
    reflexivity.
Defined.

Lemma extract_images_certify_text_witness :
  "Hello world" = visible_text Examples.sample
  /\ for_each (urljoin Examples.accept Examples.accept "https://x.com/b/c")
       (img_srcs (remove_elements ["script"; "style"] Examples.sample))
     = Return ["https://x.com/a.png"; "https://x.com/a.png"].
Proof.
  apply (extract_images_certify_text
           (Examples.serves "https://x.com/b/c" "<html>")
           (Examples.parses Examples.sample)
           Examples.accept Examples.accept "https://x.com/b/c"
           (mkResponse 200 "OK" "https://x.com/b/c" "<html>"
              (Raise Examples.malformed))
           Examples.sample "Hello world"
           ["https://x.com/a.png"; "https://x.com/a.png"]);
    try reflexivity.
  discriminate.
Defined.

(** ** The Summarizer: answers off the expected path *)

Lemma raise_for_status_message (r : Response) :
  400 <= status_code r < 600 ->
  raise_for_status r
  = Raise (HTTPError (pretty (status_code r)
                      +:+ (if status_code r <? 500 then " Client Error: "
                           else " Server Error: ")
                      +:+ reason r +:+ " for url: " +:+ Requests.url r)).
Proof.
  intros Hrange. unfold raise_for_status.
  destruct (status_code r <? 500) eqn:Hlt.
  - assert ((400 <=? status_code r) = true) as -> by (apply Z.leb_le; lia).
    simpl. now rewrite nonempty_append_r.
  - rewrite andb_false_r.
    assert ((500 <=? status_code r) = true) as ->
        by (apply Z.leb_le; apply Z.ltb_ge in Hlt; lia).
    assert ((status_code r <? 600) = true) as -> by (apply Z.ltb_lt; lia).
    simpl. now rewrite nonempty_append_r.
Qed.

(** X7: on a status from 400 to 599 [call_gemini_api] returns "Error
    calling Gemini API: " followed by the status, "Client Error" (below 500)
    or "Server Error", the reason and the URL of the response; the body is
    never decoded. *)
Theorem call_gemini_api_http_error
    key py_str send text images sent response :
  truthy_opt key = true ->
  send (POST (gemini_url key py_str) (payload text images) headers 30)
    = Return response ->
  400 <= status_code response < 600 ->
  fst (call_gemini_api key py_str send text images sent)
  = Return (JStr ("Error calling Gemini API: "
                  +:+ pretty (status_code response)
                  +:+ (if status_code response <? 500 then " Client Error: "
                       else " Server Error: ")
                  +:+ reason response +:+ " for url: " +:+ Requests.url response)).
Proof.
  intros Hkey Hsend Hrange.
  rewrite call_gemini_api_unfold by assumption. simpl.
  rewrite Hsend. simpl. now rewrite raise_for_status_message.
Qed.

Lemma call_gemini_api_http_error_witness :
  fst (call_gemini_api (Some (TStr "k3y")) Examples.no_str
         (Samples.status 429 "Too Many Requests" (Return (JDict Examples.one_candidate)))
         "Hello world" [] [])
  = Return (JStr ("Error calling Gemini API: " +:+ pretty 429
                  +:+ (if 429 <? 500 then " Client Error: " else " Server Error: ")
                  +:+ "Too Many Requests" +:+ " for url: "
                  +:+ "https://generativelanguage.googleapis.com/v1beta")).
Proof.
  apply (call_gemini_api_http_error (Some (TStr "k3y")) Examples.no_str
           (Samples.status 429 "Too Many Requests" (Return (JDict Examples.one_candidate)))
           "Hello world" [] []
           (mkResponse 429 "Too Many Requests"
              "https://generativelanguage.googleapis.com/v1beta" ""
              (Return (JDict Examples.one_candidate))));
    [reflexivity | reflexivity | simpl; lia].
Defined.

(** X8: the same for the page fetch: on a status from 400 to 599 the
    extraction returns "Error: " followed by the status, "Client Error" or
    "Server Error", the reason and the final URL, with an empty image list;
    the body is not parsed. *)
Theorem extract_http_error
    send html_parser chk_host chk_nfkc url sent response :
  send (GET url 10) = Return response ->
  400 <= status_code response < 600 ->
  extract_content_from_url send html_parser chk_host chk_nfkc url sent
  = (Return ("Error: " +:+ pretty (status_code response)
             +:+ (if status_code response <? 500 then " Client Error: "
                  else " Server Error: ")
             +:+ reason response +:+ " for url: " +:+ Requests.url response, []),
     sent ++ [GET url 10]).
Proof.
  intros Hsend Hrange. rewrite extract_unfold. simpl.
  rewrite Hsend. simpl. now rewrite raise_for_status_message.
Qed.

Lemma extract_http_error_witness :
  extract_content_from_url
    (Samples.status 503 "Service Unavailable" (Raise Examples.malformed))
    (Examples.parses Examples.sample) Examples.accept Examples.accept
    "https://x.com/b/c" []
  = (Return ("Error: " +:+ pretty 503
             +:+ (if 503 <? 500 then " Client Error: " else " Server Error: ")
             +:+ "Service Unavailable" +:+ " for url: "
             +:+ "https://generativelanguage.googleapis.com/v1beta", []),
     [GET "https://x.com/b/c" 10]).
Proof.
  apply (extract_http_error
           (Samples.status 503 "Service Unavailable" (Raise Examples.malformed))
           (Examples.parses Examples.sample) Examples.accept Examples.accept
           "https://x.com/b/c" []
           (mkResponse 503 "Service Unavailable"
              "https://generativelanguage.googleapis.com/v1beta" ""
              (Raise Examples.malformed)));
    [reflexivity | simpl; lia].
Defined.

(** X9: when [candidates] is present but falsy (null, false, zero, an empty
    string, array or object), [call_gemini_api] returns "No summary returned
    from Gemini API.", as for a missing key. *)
Theorem call_gemini_api_falsy_candidates
    key py_str send text images sent response (body : gmap string Json) candidates :
  truthy_opt key = true ->
  send (POST (gemini_url key py_str) (payload text images) headers 30)
    = Return response ->
  raise_for_status response = Return tt ->
  json response = Return (JDict body) ->
  body !! "candidates" = Some candidates ->
  truthy candidates = false ->
  fst (call_gemini_api key py_str send text images sent)
  = Return (JStr "No summary returned from Gemini API.").
Proof.
  intros Hkey Hsend Hstatus Hjson Hcand Hfalsy.
  rewrite call_gemini_api_unfold by assumption. simpl.
  rewrite Hsend. simpl. rewrite Hstatus. simpl. rewrite Hjson. simpl.
  unfold read_summary. simpl. rewrite Hcand. simpl. now rewrite Hfalsy.
Qed.

Lemma call_gemini_api_falsy_candidates_witness :
  fst (call_gemini_api (Some (TStr "k3y")) Examples.no_str
         (Examples.answers (Return (JDict {[ "candidates" := JNone ]})))
         "Hello world" [] [])
  = Return (JStr "No summary returned from Gemini API.").
Proof.
  eapply (call_gemini_api_falsy_candidates (Some (TStr "k3y")) Examples.no_str
            (Examples.answers (Return (JDict {[ "candidates" := JNone ]})))
            "Hello world" [] [] _ {[ "candidates" := JNone ]} JNone);
    reflexivity.
Defined.

(** X10: when the first candidate is an object without [content] (as when
    generation was stopped), [call_gemini_api] returns "Error calling Gemini
    API: 'content'": the message is the missing key in quotes. *)
Theorem call_gemini_api_candidate_without_content
    key py_str send text images sent response (body candidate : gmap string Json)
    others :
  truthy_opt key = true ->
  send (POST (gemini_url key py_str) (payload text images) headers 30)
    = Return response ->
  raise_for_status response = Return tt ->
  json response = Return (JDict body) ->
  body !! "candidates" = Some (JList (JDict candidate :: others)) ->
  candidate !! "content" = None ->
  fst (call_gemini_api key py_str send text images sent)
  = Return (JStr "Error calling Gemini API: 'content'").
Proof.
  intros Hkey Hsend Hstatus Hjson Hcand Hcontent.
  rewrite call_gemini_api_unfold by assumption. simpl.
  rewrite Hsend. simpl. rewrite Hstatus. simpl. rewrite Hjson. simpl.
  unfold read_summary. simpl. rewrite Hcand. simpl. now rewrite Hcontent.
Qed.

Lemma call_gemini_api_candidate_without_content_witness :
  fst (call_gemini_api (Some (TStr "k3y")) Examples.no_str
         (Examples.answers (Return (JDict Samples.blocked)))
         "Hello world" [] [])
  = Return (JStr "Error calling Gemini API: 'content'").
Proof.
  eapply (call_gemini_api_candidate_without_content (Some (TStr "k3y"))
            Examples.no_str (Examples.answers (Return (JDict Samples.blocked)))
            "Hello world" [] [] _ Samples.blocked
            {[ "finishReason" := JStr "SAFETY" ]} []);
    reflexivity.
Defined.

(** X11: a body that decodes to null, a boolean or a number stops at the
    membership test: [call_gemini_api] returns "Error calling Gemini API:
    argument of type '...' is not iterable" with the Python type of the
    body; an array or a string that holds no "candidates" gives "No summary
    returned from Gemini API.". *)
Theorem call_gemini_api_body_not_an_object
    key py_str send text images sent response data :
  truthy_opt key = true ->
  send (POST (gemini_url key py_str) (payload text images) headers 30)
    = Return response ->
  raise_for_status response = Return tt ->
  json response = Return data ->
  match data with
  | JNone | JBool _ | JInt _ | JFloat _ =>
      fst (call_gemini_api key py_str send text images sent)
      = Return (JStr ("Error calling Gemini API: argument of type '"
                      +:+ type_name data +:+ "' is not iterable"))
  | JList l =>
      existsb (is_str "candidates") l = false ->
      fst (call_gemini_api key py_str send text images sent)
      = Return (JStr "No summary returned from Gemini API.")
  | JStr s =>
      contains "candidates" s = false ->
      fst (call_gemini_api key py_str send text images sent)
      = Return (JStr "No summary returned from Gemini API.")
  | JDict _ => True
  end.
Proof.
  intros Hkey Hsend Hstatus Hjson.
  rewrite call_gemini_api_unfold by assumption. simpl.
  rewrite Hsend. simpl. rewrite Hstatus. simpl. rewrite Hjson. simpl.
  unfold read_summary.
  destruct data; simpl; try reflexivity; try exact I; now intros ->.
Qed.

Lemma call_gemini_api_body_not_an_object_witness :
  fst (call_gemini_api (Some (TStr "k3y")) Examples.no_str
         (Examples.answers (Return JNone)) "Hello world" [] [])
  = Return (JStr ("Error calling Gemini API: argument of type '"
                  +:+ type_name JNone +:+ "' is not iterable")).
Proof.
  eapply (call_gemini_api_body_not_an_object (Some (TStr "k3y")) Examples.no_str
            (Examples.answers (Return JNone)) "Hello world" [] [] _ JNone);
    reflexivity.
Defined.

(** ** The text returned is trimmed *)

Lemma nonempty_false (s : string) : nonempty s = false <-> s = "".
Proof. destruct s; split; intros H; try reflexivity; discriminate. Qed.

Lemma lstrip_starts (s : string) :
  Margin.starts_blank (lstrip isspace s) = false.
Proof.
  induction s as [|a s IH]; [reflexivity|]. simpl.
  destruct (isspace a) eqn:Ha; [exact IH | exact Ha].
Qed.

Lemma rstrip_head drop a s :
  rstrip drop (String a s) = "" \/ exists r, rstrip drop (String a s) = String a r.
Proof.
  simpl. destruct (rstrip drop s); [destruct (drop a)|]; eauto.
Qed.

Lemma rstrip_ends (s : string) : Margin.ends_blank (rstrip isspace s) = false.
Proof.
  induction s as [|a s IH]; [reflexivity|]. simpl.
  destruct (rstrip isspace s) as [|b r].
  - destruct (isspace a) eqn:Ha; [reflexivity | exact Ha].
  - exact IH.
Qed.

Lemma strip_margins (s : string) :
  Margin.starts_blank (strip s) = false /\ Margin.ends_blank (strip s) = false.
Proof.
  unfold strip, strip_chars. split; [|apply rstrip_ends].
  pose proof (lstrip_starts s) as Hstart.
  destruct (lstrip isspace s) as [|a t]; [reflexivity|].
  destruct (rstrip_head isspace a t) as [-> | [r ->]]; [reflexivity | exact Hstart].
Qed.

Lemma starts_blank_append (a b : string) :
  nonempty a = true -> Margin.starts_blank (a +:+ b) = Margin.starts_blank a.
Proof. destruct a; [discriminate | reflexivity]. Qed.

Lemma ends_blank_append (a b : string) :
  nonempty b = true -> Margin.ends_blank (a +:+ b) = Margin.ends_blank b.
Proof.
  intros Hb. induction a as [|x a IH]; [reflexivity|].
  change (String x a +:+ b) with (String x (a +:+ b)).
  destruct (a +:+ b) eqn:Hab.
  - destruct a as [|y a].
    + change (b = "") in Hab. subst. discriminate Hb.
    + change (String y (a +:+ b) = "") in Hab. discriminate Hab.
  - exact IH.
Qed.

Lemma nonempty_append_l (a b : string) :
  nonempty a = true -> nonempty (a +:+ b) = true.
Proof. destruct a; [discriminate | reflexivity]. Qed.

Lemma join_nonempty sep x l :
  nonempty x = true -> nonempty (join sep (x :: l)) = true.
Proof.
  intros Hx. destruct l; [exact Hx|]. now apply nonempty_append_l.
Qed.

Lemma join_margins (l : list string) :
  Forall (fun p => nonempty p = true /\ Margin.starts_blank p = false
                   /\ Margin.ends_blank p = false) l ->
  Margin.starts_blank (join " " l) = false /\ Margin.ends_blank (join " " l) = false.
Proof.
  induction 1 as [|p l (Hp & Hstart & Hend) Hl [_ IHend]]; [split; reflexivity|].
  destruct l as [|q l]; [split; assumption|].
  change (join " " (p :: q :: l)) with (p +:+ " " +:+ join " " (q :: l)).
  inversion Hl as [|? ? (Hq & _) _]; subst.
  split.
  - now rewrite starts_blank_append.
  - rewrite ends_blank_append by reflexivity.
    rewrite ends_blank_append by now apply join_nonempty.
    exact IHend.
Qed.

Lemma stripped_pieces (texts : list string) :
  Forall (fun p => nonempty p = true /\ Margin.starts_blank p = false
                   /\ Margin.ends_blank p = false)
    (List.filter nonempty (List.map strip texts)).
Proof.
  induction texts as [|s texts IH]; [constructor|]. simpl.
  destruct (nonempty (strip s)) eqn:Hs; [|exact IH].
  constructor; [|exact IH]. split; [exact Hs | apply strip_margins].
Qed.

Lemma filter_strip_nil (texts : list string) :
  List.filter nonempty (List.map strip texts) = []
  <-> Forall (fun s => strip s = "") texts.
Proof.
  induction texts as [|s texts IH]; simpl.
  - split; [constructor | reflexivity].
  - destruct (nonempty (strip s)) eqn:Hs.
    + split; [discriminate|]. intros Hall. inversion Hall as [|? ? Hnil _]; subst.
      rewrite Hnil in Hs. discriminate.
    + rewrite IH. apply nonempty_false in Hs. split.
      * now constructor.
      * intros Hall. now inversion Hall.
Qed.

Lemma join_nil (l : list string) :
  Forall (fun p => nonempty p = true) l -> join " " l = "" <-> l = [].
Proof.
  intros Hall. split; [|now intros ->].
  destruct Hall as [|p l Hp _]; [reflexivity|].
  intros Hjoin. pose proof (join_nonempty " " p l Hp) as Hne.
  rewrite Hjoin in Hne. discriminate.
Qed.

(** X12: the text of a successful extraction neither begins nor ends with
    whitespace, whatever blanks surround the text nodes of the page. *)
Theorem extract_text_trimmed
    send html_parser chk_host chk_nfkc url response page images :
  send (GET url 10) = Return response ->
  raise_for_status response = Return tt ->
  html_parser (content response) = Return page ->
  for_each (urljoin chk_host chk_nfkc url)
    (img_srcs (remove_elements ["script"; "style"] page)) = Return images ->
  exists text,
    fst (run (extract_content_from_url send html_parser chk_host chk_nfkc url))
    = Return (text, images)
    /\ Margin.starts_blank text = false
    /\ Margin.ends_blank text = false.
Proof.
  intros Hsend Hstatus Hparse Hresolve. exists (visible_text page). split.
  - unfold run. rewrite (extract_page _ _ _ _ _ _ _ _ Hsend Hstatus Hparse).
    now rewrite Hresolve.
  - apply join_margins, stripped_pieces.
Qed.

Lemma extract_text_trimmed_witness :
  exists text,
    fst (run (extract_content_from_url
                (Examples.serves "https://x.com/b/c" "<html>")
                (Examples.parses Examples.sample)
                Examples.accept Examples.accept "https://x.com/b/c"))
    = Return (text, ["https://x.com/a.png"; "https://x.com/a.png"])
    /\ Margin.starts_blank text = false
    /\ Margin.ends_blank text = false.
Proof.
  eapply (extract_text_trimmed
            (Examples.serves "https://x.com/b/c" "<html>")
            (Examples.parses Examples.sample)
            Examples.accept Examples.accept "https://x.com/b/c" _
            Examples.sample);
    reflexivity.
Defined.

(** X13: the text of a successful extraction is empty exactly when every
    string of class [NavigableString] or [CData] outside [script] and
    [style] is blank (or there is none); strings of other classes, as those
    held by [rt], [rp] or [template], do not count. *)
Theorem extract_text_empty_iff
    send html_parser chk_host chk_nfkc url response page images :
  send (GET url 10) = Return response ->
  raise_for_status response = Return tt ->
  html_parser (content response) = Return page ->
  for_each (urljoin chk_host chk_nfkc url)
    (img_srcs (remove_elements ["script"; "style"] page)) = Return images ->
  fst (run (extract_content_from_url send html_parser chk_host chk_nfkc url))
    = Return ("", images)
  <-> Forall (fun s => strip s = "")
        (plain_strings (remove_elements ["script"; "style"] page)).
Proof.
  intros Hsend Hstatus Hparse Hresolve.
  unfold run. rewrite (extract_page _ _ _ _ _ _ _ _ Hsend Hstatus Hparse).
  rewrite Hresolve. simpl. rewrite <- filter_strip_nil.
  unfold visible_text.
  set (pieces := List.filter nonempty
                   (List.map strip (plain_strings (remove_elements ["script"; "style"] page)))).
  assert (Hpieces : Forall (fun p => nonempty p = true) pieces).
  { eapply Forall_impl; [apply stripped_pieces|]. now intros p [? _]. }
  rewrite <- (join_nil pieces Hpieces). split.
  - now intros [= ->].
  - now intros ->.
Qed.

Lemma extract_text_empty_iff_witness :
  fst (run (extract_content_from_url
              (Examples.serves "https://x.com/" "<p> </p><script>x</script>")
              (Examples.parses Samples.blank_page)
              Examples.accept Examples.accept "https://x.com/"))
    = Return ("", [])
  <-> Forall (fun s => strip s = "")
        (plain_strings (remove_elements ["script"; "style"] Samples.blank_page)).
Proof.
  eapply (extract_text_empty_iff
            (Examples.serves "https://x.com/" "<p> </p><script>x</script>")
            (Examples.parses Samples.blank_page)
            Examples.accept Examples.accept "https://x.com/" _
            Samples.blank_page);
    reflexivity.
Defined.

(** ** The presentation *)

(** What a run does once the extraction has returned. *)
Lemma main_after_extraction
    key py_str send html_parser chk_host chk_nfkc st_image url sent text images :
  nonempty url = true ->
  extract_content_from_url send html_parser chk_host chk_nfkc url sent
    = (Return (text, images), sent ++ [GET url 10]) ->
  App.main key py_str send html_parser chk_host chk_nfkc st_image url true sent
  = if String.prefix "Error:" text then
      (Return (App.header ++ [St.spinner "Extracting content..."; St.error text]),
       sent ++ [GET url 10])
    else
      match call_gemini_api key py_str send text images (sent ++ [GET url 10]) with
      | (Return summary, sent') =>
          (match App.results st_image summary images text with
           | Return shown =>
               Return (App.header
                       ++ [St.spinner "Extracting content...";
                           St.spinner "Generating summary with Gemini API..."]
                       ++ shown)
           | Raise e => Raise e
           end, sent')
      | (Raise e, sent') => (Raise e, sent')
      end.
Proof.
  intros Hurl Hextract. unfold App.main. rewrite Hurl.
  unfold bind at 1. rewrite Hextract.
  destruct (String.prefix "Error:" text); [reflexivity|].
  unfold bind, lift. destruct (call_gemini_api _ _ _ _ _ _) as [[summary|e] sent'];
    [|reflexivity].
  destruct (App.results st_image summary images text); reflexivity.
Qed.

(** When [st.image] shows every image, the images are shown in order. *)
Lemma show_each_all st_image (images : list string) :
  Forall (fun image => st_image image 150 = Return tt) images ->
  App.show_each st_image images
  = Return (List.map (fun image => St.image image 150) images).
Proof.
  induction 1 as [|image images Himage _ IH]; [reflexivity|].
  simpl. now rewrite Himage, IH.
Qed.


(** Showing raises only what [st.image] raised on one of the images. *)
Lemma show_each_raises st_image (images : list string) e :
  App.show_each st_image images = Raise e ->
  exists image, In image images /\ st_image image 150 = Raise e.
Proof.
  induction images as [|image images IH]; [discriminate|]. simpl.
  destruct (st_image image 150) as [[]|e'] eqn:Himage; simpl.
  - destruct (App.show_each st_image images) as [shown|e'']; [discriminate|].
    intros [= ->]. destruct (IH eq_refl) as (image' & Hin & Hraise). eauto.
  - intros [= ->]. eauto.
Qed.

Lemma results_shown st_image summary images text :
  Forall (fun image => st_image image 150 = Return tt) images ->
  App.results st_image summary images text
  = Return ([St.subheader "🧠 Summary"; St.write summary;
             St.subheader "🖼 Extracted Images"]
            ++ match images with
               | [] => [St.info "No images found."]
               | _ => List.map (fun image => St.image image 150) images
               end
            ++ [St.subheader "📝 Extracted Text"; St.write (JStr text)]).
Proof.
  intros Hall. unfold App.results, App.show_images.
  destruct images as [|image images]; [reflexivity|].
  now rewrite (show_each_all _ _ Hall).
Qed.

(** X14: a run makes no request unless the button was clicked with a
    non-empty URL: it shows the form alone, or the form and "Please enter a
    valid URL." when the button was clicked on an empty field. *)
Theorem main_without_url
    key py_str send html_parser chk_host chk_nfkc st_image url clicked sent :
  clicked = false \/ url = "" ->
  App.main key py_str send html_parser chk_host chk_nfkc st_image url clicked sent
  = (Return (App.header
             ++ if clicked then [St.error "Please enter a valid URL."] else []),
     sent).
Proof.
  unfold App.main. intros [-> | ->].
  - now rewrite app_nil_r.
  - destruct clicked; [reflexivity | now rewrite app_nil_r].
Qed.

Lemma main_without_url_witness :
  App.main (Some (TStr "k3y")) Examples.no_str Examples.unreachable
    (Examples.parses []) Examples.accept Examples.accept Samples.shows_http
    "" true []
  = (Return (App.header
             ++ if true then [St.error "Please enter a valid URL."] else []),
     []).
Proof.
  apply main_without_url. right. reflexivity.
Defined.

(** X15: whatever raises inside the [try] of the extraction (the request,
    the status, the parser, the resolution of a [src]), the run shows
    "Error: " followed by the message as an error and stops: the Summarizer
    is not called, so the only request made is the GET. *)
Theorem main_stops_on_extraction_failure
    key py_str send html_parser chk_host chk_nfkc st_image url sent e :
  nonempty url = true ->
  fst (scrape send html_parser chk_host chk_nfkc url sent) = Raise e ->
  App.main key py_str send html_parser chk_host chk_nfkc st_image url true sent
  = (Return (App.header
             ++ [St.spinner "Extracting content...";
                 St.error ("Error: " +:+ exc_str e)]),
     sent ++ [GET url 10]).
Proof.
  intros Hurl Hraise.
  rewrite (main_after_extraction _ _ _ _ _ _ _ _ _ ("Error: " +:+ exc_str e) [] Hurl).
  - reflexivity.
  - pose proof (extract_unfold send html_parser chk_host chk_nfkc url sent) as Hsent.
    unfold extract_content_from_url, try_except in *.
    destruct (scrape _ _ _ _ _ _) as [[page|e'] sent']; simpl in Hraise;
      [discriminate|].
    injection Hraise as ->. unfold ret in *. cbv zeta in Hsent.
    injection Hsent as _ ->. reflexivity.
Qed.

Lemma main_stops_on_extraction_failure_witness :
  App.main (Some (TStr "k3y")) Examples.no_str
    (Examples.serves "https://x.com/" "<p>hi</p><img src='http://['>")
    (Examples.parses Examples.bad_src) Examples.accept Examples.accept
    Samples.shows_http "https://x.com/" true []
  = (Return (App.header
             ++ [St.spinner "Extracting content...";
                 St.error ("Error: " +:+ "Invalid IPv6 URL")]),
     [GET "https://x.com/" 10]).
Proof.
  apply (main_stops_on_extraction_failure (Some (TStr "k3y")) Examples.no_str
           (Examples.serves "https://x.com/" "<p>hi</p><img src='http://['>")
           (Examples.parses Examples.bad_src) Examples.accept Examples.accept
           Samples.shows_http
           "https://x.com/" [] (mkException "ValueError" "Invalid IPv6 URL"));
    reflexivity.
Defined.

(** X16: a page that was extracted without any failure but whose visible
    text begins with "Error:" is shown as an error all the same, and is
    never summarized: the only request made is the GET. *)
Theorem main_takes_error_text_for_failure
    key py_str send html_parser chk_host chk_nfkc st_image url sent
    response page images :
  nonempty url = true ->
  send (GET url 10) = Return response ->
  raise_for_status response = Return tt ->
  html_parser (content response) = Return page ->
  for_each (urljoin chk_host chk_nfkc url)
    (img_srcs (remove_elements ["script"; "style"] page)) = Return images ->
  String.prefix "Error:" (visible_text page) = true ->
  App.main key py_str send html_parser chk_host chk_nfkc st_image url true sent
  = (Return (App.header
             ++ [St.spinner "Extracting content..."; St.error (visible_text page)]),
     sent ++ [GET url 10]).
Proof.
  intros Hurl Hsend Hstatus Hparse Hresolve Hprefix.
  rewrite (main_after_extraction _ _ _ _ _ _ _ _ _ (visible_text page) images Hurl).
  - now rewrite Hprefix.
  - rewrite (extract_page _ _ _ _ _ _ _ _ Hsend Hstatus Hparse).
    now rewrite Hresolve.
Qed.

Lemma main_takes_error_text_for_failure_witness :
  App.main (Some (TStr "k3y")) Examples.no_str
    (Examples.serves "https://x.com/docs" "<h1>Error: 404 explained</h1><p> </p>")
    (Examples.parses Samples.error_article) Examples.accept Examples.accept
    Samples.shows_http "https://x.com/docs" true []
  = (Return (App.header
             ++ [St.spinner "Extracting content...";
                 St.error (visible_text Samples.error_article)]),
     [GET "https://x.com/docs" 10]).
Proof.
  eapply (main_takes_error_text_for_failure (Some (TStr "k3y")) Examples.no_str
            (Examples.serves "https://x.com/docs"
               "<h1>Error: 404 explained</h1><p> </p>")
            (Examples.parses Samples.error_article) Examples.accept Examples.accept
            Samples.shows_http "https://x.com/docs" [] _ Samples.error_article []);
    reflexivity.
Defined.

(** X17: on a page extracted without failure whose text does not begin
    with "Error:", with a usable credential and images that [st.image] can
    all show, the run makes two requests in this order: the GET of the URL,
    then the POST whose prompt is built from the very text and images
    extracted; and it shows the summary returned, the images (each 150
    wide, or a note when there is none) and the text. *)
Theorem main_summarizes_extracted_page
    key py_str send html_parser chk_host chk_nfkc st_image url sent
    response page images :
  nonempty url = true ->
  truthy_opt key = true ->
  send (GET url 10) = Return response ->
  raise_for_status response = Return tt ->
  html_parser (content response) = Return page ->
  for_each (urljoin chk_host chk_nfkc url)
    (img_srcs (remove_elements ["script"; "style"] page)) = Return images ->
  String.prefix "Error:" (visible_text page) = false ->
  Forall (fun image => st_image image 150 = Return tt) images ->
  exists summary,
    fst (call_gemini_api key py_str send (visible_text page) images [])
    = Return summary
    /\ App.main key py_str send html_parser chk_host chk_nfkc st_image url true sent
       = (Return (App.header
                  ++ [St.spinner "Extracting content...";
                      St.spinner "Generating summary with Gemini API..."]
                  ++ [St.subheader "🧠 Summary"; St.write summary;
                      St.subheader "🖼 Extracted Images"]
                  ++ match images with
                     | [] => [St.info "No images found."]
                     | _ => List.map (fun image => St.image image 150) images
                     end
                  ++ [St.subheader "📝 Extracted Text";
                      St.write (JStr (visible_text page))]),
          sent ++ [GET url 10;
                   POST (gemini_url key py_str)
                     (payload (visible_text page) images) headers 30]).
Proof.
  intros Hurl Hkey Hsend Hstatus Hparse Hresolve Hprefix Hshown.
  rewrite (main_after_extraction _ _ _ _ _ _ _ _ _ (visible_text page) images Hurl).
  2:{ rewrite (extract_page _ _ _ _ _ _ _ _ Hsend Hstatus Hparse).
      now rewrite Hresolve. }
  rewrite Hprefix. rewrite !call_gemini_api_unfold by assumption. cbv zeta.
  eexists. split; [reflexivity|]. cbn [fst].
  rewrite (results_shown _ _ _ _ Hshown), <- app_assoc. reflexivity.
Qed.

Lemma main_summarizes_extracted_page_witness :
  exists summary,
    fst (call_gemini_api (Some (TStr "k3y")) Examples.no_str
           (Samples.serves_both "<html>" (Return (JDict Examples.one_candidate)))
           (visible_text Examples.sample)
           ["https://x.com/a.png"; "https://x.com/a.png"] [])
    = Return summary
    /\ App.main (Some (TStr "k3y")) Examples.no_str
         (Samples.serves_both "<html>" (Return (JDict Examples.one_candidate)))
         (Examples.parses Examples.sample) Examples.accept Examples.accept
         Samples.shows_http "https://x.com/b/c" true []
       = (Return (App.header
                  ++ [St.spinner "Extracting content...";
                      St.spinner "Generating summary with Gemini API..."]
                  ++ [St.subheader "🧠 Summary"; St.write summary;
                      St.subheader "🖼 Extracted Images"]
                  ++ [St.image "https://x.com/a.png" 150;
                      St.image "https://x.com/a.png" 150]
                  ++ [St.subheader "📝 Extracted Text";
                      St.write (JStr (visible_text Examples.sample))]),
          [GET "https://x.com/b/c" 10;
           POST (gemini_url (Some (TStr "k3y")) Examples.no_str)
             (payload (visible_text Examples.sample)
                ["https://x.com/a.png"; "https://x.com/a.png"]) headers 30]).
Proof.
  eapply (main_summarizes_extracted_page (Some (TStr "k3y")) Examples.no_str
            (Samples.serves_both "<html>" (Return (JDict Examples.one_candidate)))
            (Examples.parses Examples.sample) Examples.accept Examples.accept
            Samples.shows_http "https://x.com/b/c" [] _ Examples.sample
            ["https://x.com/a.png"; "https://x.com/a.png"]);
    try reflexivity.
  repeat constructor.
Defined.

(** What that run shows as the summary. *)
Example main_sample_summary :
  fst (call_gemini_api (Some (TStr "k3y")) Examples.no_str
         (Samples.serves_both "<html>" (Return (JDict Examples.one_candidate)))
         (visible_text Examples.sample)
         ["https://x.com/a.png"; "https://x.com/a.png"] [])
  = Return (JStr "A short page.").
Proof. reflexivity. Qed.

(** X18: without a usable credential, on a page extracted without failure
    whose images [st.image] can all show, the run makes the GET only and
    shows "Gemini API key not found. Please check your config.toml file." in
    the place of the summary, followed by the images and the text. *)
Theorem main_without_credential
    key py_str send html_parser chk_host chk_nfkc st_image url sent
    response page images :
  nonempty url = true ->
  truthy_opt key = false ->
  send (GET url 10) = Return response ->
  raise_for_status response = Return tt ->
  html_parser (content response) = Return page ->
  for_each (urljoin chk_host chk_nfkc url)
    (img_srcs (remove_elements ["script"; "style"] page)) = Return images ->
  String.prefix "Error:" (visible_text page) = false ->
  Forall (fun image => st_image image 150 = Return tt) images ->
  App.main key py_str send html_parser chk_host chk_nfkc st_image url true sent
  = (Return (App.header
             ++ [St.spinner "Extracting content...";
                 St.spinner "Generating summary with Gemini API..."]
             ++ [St.subheader "🧠 Summary";
                 St.write (JStr "Gemini API key not found. Please check your config.toml file.");
                 St.subheader "🖼 Extracted Images"]
             ++ match images with
                | [] => [St.info "No images found."]
                | _ => List.map (fun image => St.image image 150) images
                end
             ++ [St.subheader "📝 Extracted Text";
                 St.write (JStr (visible_text page))]),
     sent ++ [GET url 10]).
Proof.
  intros Hurl Hkey Hsend Hstatus Hparse Hresolve Hprefix Hshown.
  rewrite (main_after_extraction _ _ _ _ _ _ _ _ _ (visible_text page) images Hurl).
  2:{ rewrite (extract_page _ _ _ _ _ _ _ _ Hsend Hstatus Hparse).
      now rewrite Hresolve. }
  rewrite Hprefix. unfold call_gemini_api. rewrite Hkey. simpl.
  now rewrite (results_shown _ _ _ _ Hshown).
Qed.

Lemma main_without_credential_witness :
  App.main None Examples.no_str
    (Examples.serves "https://x.com/b/c" "<html>")
    (Examples.parses Examples.sample) Examples.accept Examples.accept
    Samples.shows_http "https://x.com/b/c" true []
  = (Return (App.header
             ++ [St.spinner "Extracting content...";
                 St.spinner "Generating summary with Gemini API..."]
             ++ [St.subheader "🧠 Summary";
                 St.write (JStr "Gemini API key not found. Please check your config.toml file.");
                 St.subheader "🖼 Extracted Images"]
             ++ [St.image "https://x.com/a.png" 150;
                 St.image "https://x.com/a.png" 150]
             ++ [St.subheader "📝 Extracted Text";
                 St.write (JStr (visible_text Examples.sample))]),
     [GET "https://x.com/b/c" 10]).
Proof.
  eapply (main_without_credential None Examples.no_str
            (Examples.serves "https://x.com/b/c" "<html>")
            (Examples.parses Examples.sample) Examples.accept Examples.accept
            Samples.shows_http "https://x.com/b/c" [] _ Examples.sample
            ["https://x.com/a.png"; "https://x.com/a.png"]);
    try reflexivity.
  repeat constructor.
Defined.

(** X19: a run makes at most two requests, always in the same order:
    nothing, or the GET of the URL alone, or that GET followed by one POST to
    the summarization endpoint; no POST is ever made without the GET before
    it, nor without a usable credential. A run raises only what [st.image]
    raised on one of the images, and then the GET has been made. *)
Theorem main_requests
    key py_str send html_parser chk_host chk_nfkc st_image url clicked sent :
  exists requests,
    snd (App.main key py_str send html_parser chk_host chk_nfkc st_image
           url clicked sent)
    = sent ++ requests
    /\ (requests = []
        \/ requests = [GET url 10]
        \/ truthy_opt key = true
           /\ exists text images,
                requests = [GET url 10;
                            POST (gemini_url key py_str) (payload text images)
                              headers 30])
    /\ (forall e,
          fst (App.main key py_str send html_parser chk_host chk_nfkc st_image
                 url clicked sent) = Raise e ->
          requests <> [] /\ exists image, st_image image 150 = Raise e).
Proof.
  destruct clicked.
  2:{ exists []. rewrite app_nil_r. split; [reflexivity|]. split; [auto|].
      intros e He. discriminate He. }
  destruct (nonempty url) eqn:Hurl.
  2:{ exists []. rewrite app_nil_r. unfold App.main. rewrite Hurl.
      split; [reflexivity|]. split; [auto|]. intros e He. discriminate He. }
  pose proof (extract_unfold send html_parser chk_host chk_nfkc url sent) as Hextract.
  cbv zeta in Hextract.
  assert (Hshow : forall summary images text e,
             App.results st_image summary images text = Raise e ->
             exists image, st_image image 150 = Raise e).
  { intros summary images text e. unfold App.results, App.show_images.
    destruct images as [|image images]; [discriminate|].
    destruct (App.show_each st_image (image :: images)) as [shown|e'] eqn:Hshown;
      [discriminate|].
    intros [= ->]. apply show_each_raises in Hshown as (bad & _ & Hbad). eauto. }
  match type of Hextract with
  | context [match ?a with Return _ => _ | Raise _ => _ end] =>
      destruct a as [[text images]|e]
  end;
    rewrite (main_after_extraction _ _ _ _ _ _ st_image _ _ _ _ Hurl Hextract).
  - destruct (String.prefix "Error:" text).
    + exists [GET url 10]. split; [reflexivity|]. split; [auto|].
      intros e He. discriminate He.
    + destruct (truthy_opt key) eqn:Hkey.
      * rewrite call_gemini_api_unfold by assumption. cbv zeta.
        exists [GET url 10;
                POST (gemini_url key py_str) (payload text images) headers 30].
        rewrite <- app_assoc. split; [reflexivity|]. split.
        -- right. right. split; [reflexivity|]. eauto.
        -- cbn [fst]. intros e He. split; [discriminate|].
           destruct (App.results _ _ _ _) as [shown|e'] eqn:Hres; [discriminate|].
           injection He as ->. eapply Hshow, Hres.
      * unfold call_gemini_api. rewrite Hkey. simpl.
        exists [GET url 10]. split; [reflexivity|]. split; [auto|].
        intros e He. split; [discriminate|].
        destruct (App.results _ _ _ _) as [shown|e'] eqn:Hres; [discriminate|].
        injection He as ->. eapply Hshow, Hres.
  - exists [GET url 10]. split; [reflexivity|]. split; [auto|].
    intros e' He. discriminate He.
Qed.


